(** * GPX to Swiss LV95 route profile ("Kroki"): model and verification

    The repository holds two implementations of the same converter:

    - [src/gpx2lv95.py] (module [Gpx2lv95] below), built on pyproj and
      requests;
    - [src/gpx2kroki/gpx_to_swiss_kroki.py] (module [Kroki] below), self
      contained, driven as a subprocess by [src/gpx2kroki/app.py].

    Both are embedded here function by function, under the names they have
    in the source.  Python's [float] is kept abstract behind the class
    [Number], with two instances: IEEE binary64 (what the interpreter runs)
    and the rationals (the same operators without rounding, in which the
    number that a float stands for is expressed).  Everything
    outside the repository (the XML parser, libm, pyproj, the height
    service, [float()] on strings, the formatting of a float) is a field of
    the class [Runtime].  Exceptions are values of [result]; printing,
    logging, sleeping and HTTP requests are events collected in [io].

    The file has the model first (Python and library vocabulary, the two
    scripts, a concrete runtime to run them on, the vocabulary of the
    statements) and then the proofs, grouped by what they are about. *)

From Stdlib Require Import List Ascii String Bool ZArith Lia.
From Stdlib Require Import PrimFloat Uint63 FloatOps SpecFloat FloatAxioms.
From Stdlib Require Import DecimalString QArith Qcanon Qpower Lqa.
Import ListNotations.

Set Implicit Arguments.
Set Warnings "-inexact-float,-register-all".

Local Open Scope string_scope.
Local Open Scope list_scope.

(** ** Python values and control flow *)

(** The exceptions that the two scripts can meet. *)
Inductive exn : Type :=
| TypeError
| ValueError
| KeyError
| FileNotFoundError
| ParseError
| HTTPError (status : Z)
| NetworkError
| JSONDecodeError
| OverflowError.

(** Outcome of an expression that may raise. *)
Inductive result (A : Type) : Type :=
| Ok (a : A)
| Raise (e : exn).

Arguments Ok {A} a.
Arguments Raise {A} e.

Definition rbind {A B} (r : result A) (k : A -> result B) : result B :=
  match r with
  | Ok a => k a
  | Raise e => Raise e
  end.

Declare Scope py_scope.
Delimit Scope py_scope with py.
Notation "x <-? r ; k" := (rbind r (fun x => k))
  (at level 61, r at next level, right associativity) : py_scope.

(** A list comprehension whose body may raise: elements are evaluated left
    to right and the first exception ends the comprehension. *)
Fixpoint comprehension {A B} (f : A -> result B) (l : list A) : result (list B) :=
  match l with
  | [] => Ok []
  | a :: rest =>
      (b <-? f a ; bs <-? comprehension f rest ; Ok (b :: bs))%py
  end.

(** Python's [x or y] on lists: the first operand unless it is empty. *)
Definition list_or {A} (x y : list A) : list A :=
  match x with
  | [] => y
  | _ :: _ => x
  end.

(** [o is None] *)
Definition is_none {A} (o : option A) : bool :=
  match o with
  | None => true
  | Some _ => false
  end.

(** Truth value of a list ([if not points]). *)
Definition is_empty {A} (l : list A) : bool :=
  match l with
  | [] => true
  | _ :: _ => false
  end.

(** ** Numbers

    The arithmetic operators the scripts apply to [float] values.  [of_Z]
    injects integer literals; a decimal literal such as [169028.66] is
    written [div (of_Z 16902866) (of_Z 100)], which on binary64 is the
    correctly rounded value, as the literal is. *)
Class Number (F : Type) : Type := {
  zero : F;
  add : F -> F -> F;
  sub : F -> F -> F;
  mul : F -> F -> F;
  div : F -> F -> F;
  opp : F -> F;
  ltb : F -> F -> bool;
  of_Z : Z -> F
}.

(** IEEE 754 binary64, the arithmetic of CPython's [float]. *)
Definition float_of_Z (z : Z) : float :=
  match z with
  | Z0 => PrimFloat.zero
  | Zpos _ => PrimFloat.of_uint63 (Uint63.of_Z z)
  | Zneg p => PrimFloat.opp (PrimFloat.of_uint63 (Uint63.of_Z (Zpos p)))
  end.

#[export] Instance float_Number : Number float := {
  zero := PrimFloat.zero;
  add := PrimFloat.add;
  sub := PrimFloat.sub;
  mul := PrimFloat.mul;
  div := PrimFloat.div;
  opp := PrimFloat.opp;
  ltb := PrimFloat.ltb;
  of_Z := float_of_Z
}.

(** The rationals in canonical form: the same operators without rounding. *)
Definition Qc_ltb (x y : Qc) : bool :=
  match (x ?= y)%Qc with
  | Lt => true
  | _ => false
  end.

#[export] Instance Qc_Number : Number Qc := {
  zero := 0%Qc;
  add := Qcplus;
  sub := Qcminus;
  mul := Qcmult;
  div := Qcdiv;
  opp := Qcopp;
  ltb := Qc_ltb;
  of_Z := fun z => Q2Qc (inject_Z z)
}.

(** Python's [max(a, b)]: the first argument unless the second is strictly
    greater. *)
Definition py_max {F} `{Number F} (a b : F) : F :=
  if ltb a b then b else a.

(** Python's [sum(iterable)]: the items added left to right, starting from
    [0].  (CPython 3.12 and later compensate the rounding of a sum of
    floats, which can change the last bits of a sum of three or more
    non-zero terms; the examples below on binary64 have at most one.) *)
Definition py_sum {F} `{Number F} (l : list F) : F :=
  fold_left add l zero.

(** ** xml.etree.ElementTree *)

(** An element: tag (with its namespace in Clark notation), attributes,
    text, children in document order. *)
Inductive Element : Type :=
| Elem (tag : string) (attrib : list (string * string))
       (text : option string) (children : list Element).

Definition tag (e : Element) : string :=
  match e with Elem t _ _ _ => t end.
Definition attrib (e : Element) : list (string * string) :=
  match e with Elem _ a _ _ => a end.
Definition text (e : Element) : option string :=
  match e with Elem _ _ t _ => t end.
Definition children (e : Element) : list Element :=
  match e with Elem _ _ _ c => c end.

(** [Element.iter()]: the element and all its descendants, in document
    order. *)
Fixpoint iter (e : Element) : list Element :=
  match e with
  | Elem _ _ _ cs => e :: flat_map iter cs
  end.

Definition has_tag (t : string) (e : Element) : bool := String.eqb (tag e) t.

(** [elem.findall(".//t")]: every proper descendant with tag [t]. *)
Definition findall_descendants (root : Element) (t : string) : list Element :=
  filter (has_tag t) (flat_map iter (children root)).

(** [elem.find("t")]: the first child with tag [t], or [None]. *)
Definition find_child (e : Element) (t : string) : option Element :=
  List.find (has_tag t) (children e).

(** [elem.get(key)]: the attribute, or [None]. *)
Fixpoint assoc (key : string) (l : list (string * string)) : option string :=
  match l with
  | [] => None
  | (k, v) :: rest => if String.eqb k key then Some v else assoc key rest
  end.

Definition get (e : Element) (key : string) : option string :=
  assoc key (attrib e).

(** The namespace map [ns = {"gpx": "http://www.topografix.com/GPX/1/1"}]:
    the prefixed name [gpx:name] in Clark notation. *)
Definition gpx (name : string) : string :=
  "{http://www.topografix.com/GPX/1/1}" ++ name.

(** ** JSON and the height service *)

Inductive json (F : Type) : Type :=
| JNull
| JBool (b : bool)
| JNumber (x : F)
| JString (s : string)
| JArray (items : list (json F))
| JObject (members : list (string * json F)).

Arguments JNull {F}.
Arguments JBool {F} b.
Arguments JNumber {F} x.
Arguments JString {F} s.
Arguments JArray {F} items.
Arguments JObject {F} members.

(** What one HTTP GET to the height service comes back with: nothing
    (timeout, connection failure), or a status and a body, the body being
    [None] when it is not JSON. *)
Inductive reply (F : Type) : Type :=
| NoResponse
| Response (status : Z) (body : option (json F)).

Arguments NoResponse {F}.
Arguments Response {F} status body.

(** ** What lies outside the repository *)

Class Runtime (F : Type) : Type := {
  (** the builtin [float(s)] on a string; [None] stands for [ValueError] *)
  float_of_str : string -> option F;
  (** [format(x, ".2f")] *)
  format_2f : F -> string;
  (** [x ** k] on floats (libm's [pow]) *)
  pow : F -> Z -> F;
  math_sqrt : F -> F;
  math_atan2 : F -> F -> F;
  math_degrees : F -> F;
  (** [LV95_TRANSFORMER.transform(lon, lat)] of pyproj *)
  LV95_transform : F -> F -> F * F;
  (** [GEOD.inv(lon1, lat1, lon2, lat2)] of pyproj: forward azimuth, back
      azimuth, distance *)
  GEOD_inv : F -> F -> F -> F -> F * F * F;
  (** [ET.parse(path).getroot()] *)
  ET_parse : string -> result Element;
  (** the Swisstopo height service, asked for easting [e] and northing [n];
      its answer is taken to depend on the coordinates only *)
  height_api : F -> F -> reply F;
  (** [x ** k] raises [OverflowError]: [x] is finite and the power is not.
      [pow] gives the value where it does not raise *)
  pow_raises : F -> Z -> bool;
  (** writing a text file at the path ([open(path, 'w')] and [write],
      [Path.write_text]): [None] when the file is written, the exception
      otherwise (a directory that does not exist, no permission) *)
  write_text : string -> option exn
}.

(** [float(x)] where [x] is a string or [None]. *)
Definition py_float {F} `{Runtime F} (x : option string) : result F :=
  match x with
  | None => Raise TypeError
  | Some s =>
      match float_of_str s with
      | Some v => Ok v
      | None => Raise ValueError
      end
  end.

(** A raw way-point: latitude, longitude, elevation or [None]. *)
Definition point (F : Type) : Type := (F * F * option F)%type.

(** [float(el.text) if el is not None and el.text else None], for [el] the
    [gpx:ele] child of a point element. *)
Definition read_ele {F} `{Runtime F} (elem : Element) : result (option F) :=
  match find_child elem (gpx "ele") with
  | None => Ok None
  | Some el =>
      match text el with
      | None => Ok None
      | Some s =>
          if String.eqb s "" then Ok None
          else (v <-? py_float (Some s) ; Ok (Some v))%py
      end
  end.

(** ** Output

    The report is kept line by line, as the list that both scripts build
    before they join it; a line that carries numbers keeps the numbers, so
    that what is printed can be read back.  [Row]'s elevation is [None]
    where the source prints ["N/A"].  [render] in each script gives the
    text. *)
Inductive line (F : Type) : Type :=
| Text (s : string)
| Row (i : nat) (e n dist : F) (elev : option F) (delta_ele azimuth : F)
| TotalDistance (d : F)
| TotalAscent (a : F)
| TotalDescent (d : F).

Arguments Text {F} s.
Arguments Row {F} i e n dist elev delta_ele azimuth.
Arguments TotalDistance {F} d.
Arguments TotalAscent {F} a.
Arguments TotalDescent {F} d.

Inductive message (F : Type) : Type :=
| CouldNotFetch (e n : F) (exc : exn)
| NoPointsFound
| FetchingElevation
| ElevationFetched (i : nat) (ele : F)
| Blank
| FileNotFound (path : string)
| ErrorMsg (exc : exn)
| Unexpected (exc : exn)
| KrokiSaved (path : string)
| KrokiWritten (path : string).

Arguments CouldNotFetch {F} e n exc.
Arguments NoPointsFound {F}.
Arguments FetchingElevation {F}.
Arguments ElevationFetched {F} i ele.
Arguments Blank {F}.
Arguments FileNotFound {F} path.
Arguments ErrorMsg {F} exc.
Arguments Unexpected {F} exc.
Arguments KrokiSaved {F} path.
Arguments KrokiWritten {F} path.

Inductive level : Type := INFO | WARNING | ERROR.

(** What a run does to the outside, in order. *)
Inductive event (F : Type) : Type :=
| HttpGet (e n : F)
| Sleep
| Stderr (m : message F)
| Stdout (m : message F)
| Log (lvl : level) (m : message F)
| PrintReport (report : list (line F))
| WriteReport (path : string) (report : list (line F)).

Arguments HttpGet {F} e n.
Arguments Sleep {F}.
Arguments Stderr {F} m.
Arguments Stdout {F} m.
Arguments Log {F} lvl m.
Arguments PrintReport {F} report.
Arguments WriteReport {F} path report.

(** A computation with effects: its value and the events it caused. *)
Definition io (F A : Type) : Type := (A * list (event F))%type.

Definition ret {F A} (a : A) : io F A := (a, []).

Definition bind {F A B} (m : io F A) (k : A -> io F B) : io F B :=
  let (a, t1) := m in
  let (b, t2) := k a in
  (b, t1 ++ t2).

Definition emit {F} (ev : event F) : io F unit := (tt, [ev]).

Definition when {F} (c : bool) (m : io F unit) : io F unit :=
  if c then m else ret tt.

Notation "x <- m ;; k" := (bind m (fun x => k))
  (at level 61, m at next level, right associativity) : py_scope.
Notation "m ;; k" := (bind m (fun _ => k))
  (at level 61, right associativity) : py_scope.

(** The text of a report: [str(i)], the alignments [<w] and [>w] of a
    format specification, and the line break of ["\n".join]. *)
Definition str_of_nat (n : nat) : string :=
  NilEmpty.string_of_uint (Nat.to_uint n).

Definition spaces (k : nat) : string := String.concat "" (repeat " " k).

Definition ljust (w : nat) (s : string) : string :=
  s ++ spaces (w - String.length s).

Definition rjust (w : nat) (s : string) : string :=
  spaces (w - String.length s) ++ s.

Definition newline : string := String (ascii_of_nat 10) EmptyString.

(** [c * 100]: the rules of the report. *)
Definition rule (c : string) : string :=
  String.concat "" (repeat c 100).

(** [enumerate(l, start)] *)
Fixpoint enumerate {A} (start : nat) (l : list A) : list (nat * A) :=
  match l with
  | [] => []
  | a :: rest => (start, a) :: enumerate (S start) rest
  end.

(** [s1 in s2] on strings. *)
Definition str_contains (needle hay : string) : bool :=
  match String.index 0 needle hay with
  | Some _ => true
  | None => false
  end.

(** [data[key]] on a decoded JSON value. *)
Fixpoint members_get {F} (key : string) (m : list (string * json F)) : option (json F) :=
  match m with
  | [] => None
  | (k, v) :: rest => if String.eqb k key then Some v else members_get key rest
  end.

Definition subscript {F} (data : json F) (key : string) : result (json F) :=
  match data with
  | JObject m =>
      match members_get key m with
      | Some v => Ok v
      | None => Raise KeyError
      end
  | _ => Raise TypeError
  end.

(** [key in data] on a decoded JSON value. *)
Definition json_contains {F} (key : string) (data : json F) : result bool :=
  match data with
  | JObject m =>
      Ok (match members_get key m with Some _ => true | None => false end)
  | JArray items =>
      Ok (existsb (fun v => match v with
                            | JString s => String.eqb s key
                            | _ => false
                            end) items)
  | JString s => Ok (str_contains key s)
  | _ => Raise TypeError
  end.

(** [float(v)] on a decoded JSON value. *)
Definition float_of_json {F} `{Number F} `{Runtime F} (v : json F) : result F :=
  match v with
  | JNumber x => Ok x
  | JBool b => Ok (of_Z (if b then 1 else 0))
  | JString s => py_float (Some s)
  | _ => Raise TypeError
  end.

Local Open Scope py_scope.

(** ** src/gpx2kroki/gpx_to_swiss_kroki.py *)
Module Kroki.
Section Script.

Context {F : Type} `{Number F} `{Runtime F}.

Local Notation "x + y" := (add x y).
Local Notation "x - y" := (sub x y).
Local Notation "x * y" := (mul x y).
Local Notation "x / y" := (div x y).
(** the decimal literal with digits [m], the last two after the point *)
Local Notation "'dec' m" := (div (of_Z m) (of_Z 100)) (at level 9, m at level 9).

(** The body of the [try] of [fetch_elevation_swisstopo]: [urlopen] raises
    on no response and on a status outside 2xx, [json.loads] on a body that
    is not JSON. *)
Definition urlopen_json (r : reply F) : result (json F) :=
  match r with
  | NoResponse => Raise NetworkError
  | Response status body =>
      if (200 <=? status)%Z && (status <? 300)%Z then
        match body with
        | Some data => Ok data
        | None => Raise JSONDecodeError
        end
      else Raise (HTTPError status)
  end.

Definition try_fetch (r : reply F) : result (option F) :=
  data <-? urlopen_json r ;
  present <-? json_contains "height" data ;
  if (present : bool) then
    v <-? subscript data "height" ;
    x <-? float_of_json v ;
    Ok (Some x)
  else Ok None.

Definition fetch_elevation_swisstopo (e n : F) : io F (option F) :=
  emit (HttpGet e n) ;;
  match try_fetch (height_api e n) with
  | Ok r => ret r
  | Raise ex => emit (Stderr (CouldNotFetch e n ex)) ;; ret None
  end.

Definition wgs84_to_lv95 (lat lon : F) : F * F :=
  let lat_aux := (lat * of_Z 3600 - dec 16902866) / of_Z 10000 in
  let lon_aux := (lon * of_Z 3600 - dec 2678250) / of_Z 10000 in
  let E := dec 260007237
           + dec 21145593 * lon_aux
           - dec 1093851 * lon_aux * lat_aux
           - dec 36 * lon_aux * pow lat_aux 2
           - dec 4454 * pow lon_aux 3 in
  let N := dec 120014707
           + dec 30880795 * lat_aux
           + dec 374525 * pow lon_aux 2
           + dec 7663 * pow lat_aux 2
           - dec 19456 * pow lon_aux 2 * lat_aux
           + dec 11979 * pow lat_aux 3 in
  (E, N).

(** One of the powers of [wgs84_to_lv95] raises [OverflowError]; the
    function above gives the coordinates when none does. *)
Definition wgs84_to_lv95_raises (lat lon : F) : bool :=
  let lat_aux := (lat * of_Z 3600 - dec 16902866) / of_Z 10000 in
  let lon_aux := (lon * of_Z 3600 - dec 2678250) / of_Z 10000 in
  pow_raises lat_aux 2 || pow_raises lon_aux 3
  || pow_raises lon_aux 2 || pow_raises lat_aux 3.

Definition calculate_distance (e1 n1 e2 n2 : F) : F :=
  math_sqrt (pow (e2 - e1) 2 + pow (n2 - n1) 2).

(** One of the two squares of [calculate_distance] raises
    [OverflowError]; the function above gives the distance when none
    does. *)
Definition calculate_distance_raises (e1 n1 e2 n2 : F) : bool :=
  pow_raises (e2 - e1) 2 || pow_raises (n2 - n1) 2.

Definition calculate_azimuth (e1 n1 e2 n2 : F) : F :=
  let delta_e := e2 - e1 in
  let delta_n := n2 - n1 in
  let azimuth_rad := math_atan2 delta_e delta_n in
  let azimuth_deg := math_degrees azimuth_rad in
  if ltb azimuth_deg zero then azimuth_deg + of_Z 360 else azimuth_deg.

(** One of the three [for] loops of [parse_gpx], which differ in the tag
    only: [points] is the list being appended to. *)
Fixpoint collect (elems : list Element) (points : list (point F))
  : result (list (point F)) :=
  match elems with
  | [] => Ok points
  | pt :: rest =>
      match get pt "lat", get pt "lon" with
      | Some lat_str, Some lon_str =>
          lat <-? py_float (Some lat_str) ;
          lon <-? py_float (Some lon_str) ;
          ele <-? read_ele pt ;
          collect rest (points ++ [(lat, lon, ele)])
      | _, _ => collect rest points
      end
  end.

Definition points_of_root (root : Element) : result (list (point F)) :=
  let points := [] in
  points <-? collect (findall_descendants root (gpx "trkpt")) points ;
  points <-? (if is_empty points
              then collect (findall_descendants root (gpx "rtept")) points
              else Ok points) ;
  points <-? (if is_empty points
              then collect (findall_descendants root (gpx "wpt")) points
              else Ok points) ;
  Ok points.

Definition parse_gpx (gpx_file : string) : result (list (point F)) :=
  root <-? ET_parse gpx_file ;
  points_of_root root.

(** A point in Swiss coordinates: E, N, elevation or [None]. *)
Definition swiss_point : Type := (F * F * option F)%type.

(** Body of the first loop of [generate_kroki] for the point of index [i]. *)
Definition resolve_point (fetch_elevation : bool) (i : nat) (p : point F)
  : io F swiss_point :=
  let '(lat, lon, ele) := p in
  let '(e, n) := wgs84_to_lv95 lat lon in
  ele <- (if is_none ele && fetch_elevation then
            ele <- fetch_elevation_swisstopo e n ;;
            match ele with
            | Some v => emit (Stderr (ElevationFetched (i + 1) v))
            | None => ret tt
            end ;;
            emit Sleep ;;
            ret ele
          else ret ele) ;;
  ret (e, n, ele).

Fixpoint resolve_points (fetch_elevation : bool) (l : list (nat * point F))
  (swiss_points : list swiss_point) : io F (list swiss_point) :=
  match l with
  | [] => ret swiss_points
  | (i, p) :: rest =>
      sp <- resolve_point fetch_elevation i p ;;
      resolve_points fetch_elevation rest (swiss_points ++ [sp])
  end.

(** Body of the second loop: the table row of point [i] (counted from 1). *)
Definition row (swiss_points : list swiss_point) (i : nat) (p : swiss_point)
  : line F :=
  let '(e, n, ele) := p in
  if (i =? 1)%nat then
    Row i e n zero ele zero zero
  else
    let '(prev_e, prev_n, prev_ele) := nth (i - 2) swiss_points p in
    let dist := calculate_distance prev_e prev_n e n in
    let azimuth := calculate_azimuth prev_e prev_n e n in
    match ele, prev_ele with
    | Some ele, Some prev_ele => Row i e n dist (Some ele) (ele - prev_ele) azimuth
    | _, _ => Row i e n dist None zero azimuth
    end.

(** [all(p[2] is not None for p in swiss_points)], with the elevations when
    it holds. *)
Fixpoint all_elevations (swiss_points : list swiss_point) : option (list F) :=
  match swiss_points with
  | [] => Some []
  | (_, _, None) :: _ => None
  | (_, _, Some ele) :: rest =>
      match all_elevations rest with
      | Some eles => Some (ele :: eles)
      | None => None
      end
  end.

(** [sum(f(l[i-1], l[i]) for i in range(1, len(l)))] *)
Definition sum_over_segments {A} (f : A -> A -> F) (l : list A) (d : A) : F :=
  py_sum (map (fun i => f (nth (i - 1) l d) (nth i l d)) (seq 1 (List.length l - 1))).

Definition total_distance (swiss_points : list swiss_point) : F :=
  sum_over_segments
    (fun p q => calculate_distance (fst (fst p)) (snd (fst p))
                                   (fst (fst q)) (snd (fst q)))
    swiss_points (zero, zero, None).

Definition total_ascent (eles : list F) : F :=
  sum_over_segments (fun prev cur => py_max zero (cur - prev)) eles zero.

Definition total_descent (eles : list F) : F :=
  sum_over_segments (fun prev cur => py_max zero (prev - cur)) eles zero.

(** The text that [generate_kroki] assembles in [output_lines]. *)
Definition report (swiss_points : list swiss_point) : list (line F) :=
  [Text (rule "="); Text "KROKI - Route Profile with Swiss LV95 Coordinates";
   Text (rule "="); Text "";
   Text "Punkt  E (m)        N (m)        Dist (m)     Hoehe (m)    Delta H (m)  Azimuth (°) ";
   Text (rule "-")]
  ++ map (fun ip => row swiss_points (fst ip) (snd ip)) (enumerate 1 swiss_points)
  ++ [Text (rule "-")]
  ++ (let total_dist := total_distance swiss_points in
      match all_elevations swiss_points with
      | Some eles =>
          [Text ""; TotalDistance total_dist;
           TotalAscent (total_ascent eles);
           TotalDescent (total_descent eles)]
      | None => [Text ""; TotalDistance total_dist]
      end)
  ++ [Text ""].

(** The f-strings behind the lines, and [output_text]. *)
Definition render_line (l : line F) : string :=
  match l with
  | Text s => s
  | Row i e n dist elev delta_ele azimuth =>
      let ele_str := match elev with
                     | Some ele => format_2f ele
                     | None => "N/A"
                     end in
      String.concat " "
        [ljust 6 (str_of_nat i); ljust 12 (format_2f e); ljust 12 (format_2f n);
         ljust 12 (format_2f dist); ljust 12 ele_str;
         ljust 12 (format_2f delta_ele); ljust 12 (format_2f azimuth)]
  | TotalDistance d => "Total Distance: " ++ format_2f d ++ " m"
  | TotalAscent a => "Total Ascent: " ++ format_2f a ++ " m"
  | TotalDescent d => "Total Descent: " ++ format_2f d ++ " m"
  end.

Definition render (output_lines : list (line F)) : string :=
  String.concat newline (map render_line output_lines).

(** The conversion of one of the points raises [OverflowError]. *)
Definition conversion_raises (points : list (point F)) : bool :=
  existsb (fun p => wgs84_to_lv95_raises (fst (fst p)) (snd (fst p))) points.

(** The distance between two neighbours raises [OverflowError]: in the
    second loop, or in [total_dist] for a single pair. *)
Fixpoint distance_raises (swiss_points : list swiss_point) : bool :=
  match swiss_points with
  | (prev_e, prev_n, _) :: ((e, n, _) :: _) as rest =>
      calculate_distance_raises prev_e prev_n e n || distance_raises rest
  | _ => false
  end.

(** [generate_kroki].  An [OverflowError] is raised where the loop that
    meets it ends, not inside it: when the conversion of a point
    overflows, the source stops at that point, without the requests and
    pauses that are listed here for the points after it.  The exception,
    the exit status and the absence of a report are those of the
    source. *)
Definition generate_kroki (gpx_file : string) (output_file : option string)
  (fetch_elevation : bool) : io F (result unit) :=
  match parse_gpx gpx_file with
  | Raise ex => ret (Raise ex)
  | Ok points =>
      if is_empty points then
        emit (Stderr NoPointsFound) ;;
        ret (Ok tt)
      else
        let missing_elevation := existsb (fun p => is_none (snd p)) points in
        when (missing_elevation && fetch_elevation) (emit (Stderr FetchingElevation)) ;;
        swiss_points <- resolve_points fetch_elevation (enumerate 0 points) [] ;;
        if conversion_raises points then ret (Raise OverflowError)
        else
          when (missing_elevation && fetch_elevation) (emit (Stderr Blank)) ;;
          if distance_raises swiss_points then ret (Raise OverflowError)
          else
            let output_text := report swiss_points in
            match output_file with
            | Some path =>
                if String.eqb path "" then
                  emit (PrintReport output_text) ;; ret (Ok tt)
                else
                  match write_text path with
                  | None =>
                      emit (WriteReport path output_text) ;;
                      emit (Stdout (KrokiSaved path)) ;;
                      ret (Ok tt)
                  | Some exc => ret (Raise exc)
                  end
            | None => emit (PrintReport output_text) ;; ret (Ok tt)
            end
  end.

(** [main] from the [try] on, that is, once [sys.argv] is read: the exit
    status of the process. *)
Definition main (gpx_file : string) (output_file : option string)
  (fetch_elevation : bool) : io F Z :=
  r <- generate_kroki gpx_file output_file fetch_elevation ;;
  match r with
  | Ok _ => ret 0%Z
  | Raise FileNotFoundError =>
      emit (Stderr (FileNotFound gpx_file)) ;; ret 1%Z
  | Raise e =>
      emit (Stderr (ErrorMsg e)) ;; ret 1%Z
  end.

End Script.

Arguments swiss_point F : clear implicits.

End Kroki.

(** ** src/gpx2lv95.py *)
Module Gpx2lv95.
Section Script.

Context {F : Type} `{Number F} `{Runtime F}.

Local Notation "x - y" := (sub x y).

(** The body of the [try] of [fetch_elevation]: [requests.get] raises on no
    response, [raise_for_status] on a 4xx or 5xx status, [resp.json()] on a
    body that is not JSON. *)
Definition try_fetch (r : reply F) : result F :=
  match r with
  | NoResponse => Raise NetworkError
  | Response status body =>
      if (400 <=? status)%Z && (status <? 600)%Z then Raise (HTTPError status)
      else
        match body with
        | None => Raise JSONDecodeError
        | Some data =>
            v <-? subscript data "height" ;
            float_of_json v
        end
  end.

Definition fetch_elevation (ele : option F) (e n : F) (use_height_api : bool)
  : io F F :=
  match ele with
  | Some ele => ret ele
  | None =>
      if negb use_height_api then ret zero
      else
        emit (HttpGet e n) ;;
        match try_fetch (height_api e n) with
        | Ok height => ret height
        | Raise exc =>
            emit (Log WARNING (CouldNotFetch e n exc)) ;;
            ret zero
        end
  end.

Definition _extract (elem : Element) : result (point F) :=
  lat <-? py_float (get elem "lat") ;
  lon <-? py_float (get elem "lon") ;
  ele <-? read_ele elem ;
  Ok (lat, lon, ele).

Definition points_of_root (root : Element) : result (list (point F)) :=
  comprehension _extract
    (list_or (list_or (findall_descendants root (gpx "trkpt"))
                      (findall_descendants root (gpx "rtept")))
             (findall_descendants root (gpx "wpt"))).

Definition parse_gpx (gpx_path : string) : result (list (point F)) :=
  root <-? ET_parse gpx_path ;
  points_of_root root.

(** One dict of the profile.  ['ele'] is an option because [format_profile]
    asks whether it is [None]. *)
Record entry : Type := {
  pt_e : F;
  pt_n : F;
  pt_ele : option F;
  pt_dist : F;
  pt_azimuth : F;
  pt_delta_ele : F
}.

(** The variables that live across the iterations of [build_profile]. *)
Record loop_state : Type := {
  profile : list entry;
  dist : F;
  azim : F;
  d_ele : F
}.

(** [profile[-1]['ele']] *)
Definition last_ele (profile : list entry) : option F :=
  match nth_error profile (List.length profile - 1) with
  | Some pt => pt_ele pt
  | None => None
  end.

(** Body of the loop of [build_profile] at index [idx].  For [idx > 0] the
    index [idx - 1] is in range and the profile is not empty; the defaults
    below stand where Python would raise. *)
Definition step (points : list (point F)) (use_height_api : bool)
  (st : loop_state) (idx : nat) (p : point F) : io F loop_state :=
  let '(lat, lon, ele) := p in
  let '(e, n) := LV95_transform lon lat in
  resolved_ele <- fetch_elevation ele e n use_height_api ;;
  let '(dist, azim, d_ele) :=
    if (0 <? idx)%nat then
      let '(prev_lat, prev_lon, _) := nth (idx - 1) points p in
      let '(azim, _, dist) := GEOD_inv prev_lon prev_lat lon lat in
      let d_ele := match last_ele (profile st) with
                   | Some prev_ele => resolved_ele - prev_ele
                   | None => d_ele st
                   end in
      (dist, azim, d_ele)
    else (dist st, azim st, d_ele st) in
  ret {| profile := profile st ++
                    [{| pt_e := e; pt_n := n; pt_ele := Some resolved_ele;
                        pt_dist := dist; pt_azimuth := azim;
                        pt_delta_ele := d_ele |}];
         dist := dist; azim := azim; d_ele := d_ele |}.

Fixpoint build_loop (points : list (point F)) (use_height_api : bool)
  (l : list (nat * point F)) (st : loop_state) : io F loop_state :=
  match l with
  | [] => ret st
  | (idx, p) :: rest =>
      st <- step points use_height_api st idx p ;;
      build_loop points use_height_api rest st
  end.

Definition build_profile (points : list (point F)) (use_height_api : bool)
  : io F (list entry) :=
  st <- build_loop points use_height_api (enumerate 0 points)
          {| profile := []; dist := zero; azim := zero; d_ele := zero |} ;;
  ret (profile st).

Definition total_distance (profile : list entry) : F :=
  py_sum (map pt_dist profile).

Definition total_ascent (profile : list entry) : F :=
  py_sum (map (fun p => py_max zero (pt_delta_ele p)) (tl profile)).

Definition total_descent (profile : list entry) : F :=
  py_sum (map (fun p => py_max zero (opp (pt_delta_ele p))) (tl profile)).

Definition format_profile (profile : list entry) : list (line F) :=
  [Text (rule "="); Text "KROKI - Route profile (LV95)"; Text (rule "=");
   Text "";
   Text "Pt          E (m)        N (m)     Dist (m)     Elev (m)    ΔElev (m)     Azim (°)";
   Text (rule "-")]
  ++ map (fun ip => let pt := snd ip in
                    Row (fst ip) (pt_e pt) (pt_n pt) (pt_dist pt) (pt_ele pt)
                        (pt_delta_ele pt) (pt_azimuth pt))
         (enumerate 1 profile)
  ++ [Text (rule "-")]
  ++ [Text ""; TotalDistance (total_distance profile)]
  ++ (if forallb (fun p => negb (is_none (pt_ele p))) profile then
        [TotalAscent (total_ascent profile);
         TotalDescent (total_descent profile)]
      else []).

(** The f-strings behind the lines, and the string that [format_profile]
    returns.  The unit of the summary lines follows a narrow no-break space
    (U+202F). *)
Definition render_line (l : line F) : string :=
  match l with
  | Text s => s
  | Row i e n dist elev delta_ele azimuth =>
      let elev_str := match elev with
                      | Some ele => format_2f ele
                      | None => "N/A"
                      end in
      String.concat " "
        [ljust 4 (str_of_nat i); rjust 12 (format_2f e); rjust 12 (format_2f n);
         rjust 12 (format_2f dist); rjust 12 elev_str;
         rjust 12 (format_2f delta_ele); rjust 12 (format_2f azimuth)]
  | TotalDistance d => "Total distance: " ++ format_2f d ++ " m"
  | TotalAscent a => "Total ascent : " ++ format_2f a ++ " m"
  | TotalDescent d => "Total descent: " ++ format_2f d ++ " m"
  end.

Definition render (lines : list (line F)) : string :=
  String.concat newline (map render_line lines).

(** [main] from the [try] on, that is, once argparse has read the command
    line: the exit status of the process. *)
Definition main (gpx_file : string) (output_file : option string)
  (use_height_api : bool) : io F Z :=
  match parse_gpx gpx_file with
  | Raise FileNotFoundError =>
      emit (Log ERROR (FileNotFound gpx_file)) ;; ret 1%Z
  | Raise exc =>
      emit (Log ERROR (Unexpected exc)) ;; ret 1%Z
  | Ok raw_points =>
      if is_empty raw_points then
        emit (Log ERROR (Unexpected ValueError)) ;; ret 1%Z
      else
        profile <- build_profile raw_points use_height_api ;;
        let report := format_profile profile in
        match output_file with
        | Some path =>
            match write_text path with
            | None =>
                emit (WriteReport path report) ;;
                emit (Log INFO (KrokiWritten path)) ;;
                ret 0%Z
            | Some FileNotFoundError =>
                emit (Log ERROR (FileNotFound gpx_file)) ;; ret 1%Z
            | Some exc =>
                emit (Log ERROR (Unexpected exc)) ;; ret 1%Z
            end
        | None => emit (PrintReport report) ;; ret 0%Z
        end
  end.

End Script.

Arguments entry F : clear implicits.
Arguments loop_state F : clear implicits.

End Gpx2lv95.

(** ** A concrete runtime on binary64

    Used to run the two scripts on examples.  [float()] is covered on plain
    decimal strings; libm is exact where IEEE 754 makes it so ([sqrt]) and
    otherwise a stand-in that agrees with it on the inputs of the examples:
    [pow] by repeated multiplication, [atan2] on the coordinate axes. *)
Module Sample.

Local Open Scope Z_scope.

Definition digit (c : Ascii.ascii) : option Z :=
  let k := Z.of_nat (Ascii.nat_of_ascii c) in
  if (48 <=? k) && (k <=? 57) then Some (k - 48) else None.

(** Digits [s] read after the mantissa [m]; [scale] is [Some d] once the
    point is passed, [d] being the power of ten to divide by. *)
Fixpoint decimal (s : string) (m : Z) (scale : option Z) : option (Z * Z) :=
  match s with
  | EmptyString => Some (m, match scale with Some d => d | None => 1 end)
  | String c rest =>
      if Ascii.eqb c "."%char then
        match scale with
        | None => decimal rest m (Some 1)
        | Some _ => None
        end
      else
        match digit c with
        | Some k =>
            decimal rest (10 * m + k)
                    (match scale with Some d => Some (10 * d) | None => None end)
        | None => None
        end
  end.

(** [float(s)] for [s] an optional minus sign, digits, and at most one
    point; integers below 2^53 divide to the correctly rounded value. *)
Definition parse_float (s : string) : option float :=
  let quotient (neg : bool) (body : string) :=
    match body with
    | EmptyString => None
    | "."%string => None
    | _ =>
        match decimal body 0 None with
        | Some (m, d) =>
            let x := PrimFloat.div (float_of_Z m) (float_of_Z d) in
            Some (if neg then PrimFloat.opp x else x)
        | None => None
        end
    end in
  match s with
  | String c rest =>
      if Ascii.eqb c "-"%char then quotient true rest else quotient false s
  | EmptyString => None
  end.

(** [format(x, ".2f")]: the exact value of [x], which is [m * 2^e], rounded
    to the nearest hundredth, ties to even. *)
Definition round_hundredths (m : positive) (e : Z) : Z :=
  let n := Zpos m * 100 in
  if 0 <=? e then n * 2 ^ e
  else
    let d := 2 ^ (- e) in
    let q := n / d in
    match 2 * (n mod d) ?= d with
    | Lt => q
    | Gt => q + 1
    | Eq => if Z.even q then q else q + 1
    end.

Definition str_of_Z (z : Z) : string := NilZero.string_of_int (Z.to_int z).

Definition two_decimals (x : float) : string :=
  match Prim2SF x with
  | S754_nan => "nan"
  | S754_infinity s => if s then "-inf" else "inf"
  | S754_zero s => if s then "-0.00" else "0.00"
  | S754_finite s m e =>
      let h := round_hundredths m e in
      let units := str_of_Z (h / 100) in
      let cents := str_of_Z (h mod 100) in
      let pad := if h mod 100 <? 10 then "0"%string else ""%string in
      ((if s then "-" else "") ++ units ++ "." ++ pad ++ cents)%string
  end.

Local Open Scope float_scope.

Definition power (x : float) (k : Z) : float :=
  match k with
  | 2%Z => x * x
  | 3%Z => x * x * x
  | _ => nan
  end.

Definition pi : float := 0x1.921fb54442d18p+1.

(** [atan2(y, x)] on the axes (the sign of a zero is not looked at). *)
Definition atan2 (y x : float) : float :=
  if PrimFloat.eqb y 0 then (if PrimFloat.ltb x 0 then pi else 0)
  else if PrimFloat.eqb x 0 then (if PrimFloat.ltb y 0 then - (pi / 2) else pi / 2)
  else nan.

(** CPython's [math.degrees]: [x * (180.0 / pi)]. *)
Definition degrees (x : float) : float := x * (180 / pi).

(** pyproj's forward transform, replaced by the Swisstopo approximation that
    the other script uses. *)
Definition transform (lon lat : float) : float * float :=
  let lat_aux := (lat * 3600 - 169028.66) / 10000 in
  let lon_aux := (lon * 3600 - 26782.5) / 10000 in
  (2600072.37 + 211455.93 * lon_aux - 10938.51 * lon_aux * lat_aux
   - 0.36 * lon_aux * (lat_aux * lat_aux) - 44.54 * (lon_aux * lon_aux * lon_aux),
   1200147.07 + 308807.95 * lat_aux + 3745.25 * (lon_aux * lon_aux)
   + 76.63 * (lat_aux * lat_aux) - 194.56 * (lon_aux * lon_aux) * lat_aux
   + 119.79 * (lat_aux * lat_aux * lat_aux)).

(** A stand-in for pyproj's [Geod.inv].  Its azimuths are right along the
    equator and along a meridian, where the geodesic keeps its bearing: in
    degrees between -180 and 180, as pyproj reports them.  Its distance is
    right along the equator (metres per degree of longitude there). *)
Definition geod_inv (lon1 lat1 lon2 lat2 : float) : float * float * float :=
  let dlon := lon2 - lon1 in
  let dlat := lat2 - lat1 in
  (degrees (atan2 dlon dlat), degrees (atan2 (- dlon) (- dlat)),
   111319.49079327357 * PrimFloat.sqrt (dlon * dlon + dlat * dlat)).

(** [x] is neither an infinity nor a nan. *)
Definition is_finite (x : float) : bool :=
  match Prim2SF x with
  | S754_zero _ | S754_finite _ _ _ => true
  | _ => false
  end.

(** [x ** k] overflows: Python raises when the power of a finite number is
    an infinity. *)
Definition power_raises (x : float) (k : Z) : bool :=
  is_finite x && PrimFloat.eqb (PrimFloat.abs (power x k)) infinity.

(** Every path can be written, except below [/nonexistent_dir]. *)
Definition write (path : string) : option exn :=
  if String.prefix "/nonexistent_dir/" path then Some FileNotFoundError
  else None.

Definition runtime (files : string -> result Element)
  (service : float -> float -> reply float) : Runtime float := {|
  float_of_str := parse_float;
  format_2f := two_decimals;
  pow := power;
  math_sqrt := PrimFloat.sqrt;
  math_atan2 := atan2;
  math_degrees := degrees;
  LV95_transform := transform;
  GEOD_inv := geod_inv;
  ET_parse := files;
  height_api := service;
  pow_raises := power_raises;
  write_text := write
|}.

(** *** Documents and services to run on *)

Definition pt_elem (name : string) (attrs : list (string * string))
  (ele : option string) : Element :=
  Elem (gpx name) attrs None
       match ele with
       | Some s => [Elem (gpx "ele") [] (Some s) []]
       | None => []
       end.

Definition gpx_doc (content : list Element) : Element :=
  Elem (gpx "gpx") [("version", "1.1")] None content.

Definition trk (pts : list Element) : Element :=
  Elem (gpx "trk") [] None [Elem (gpx "trkseg") [] None pts].

(** A way-point, then a track of two points 1000 m and 1050 m high. *)
Definition track_doc : Element :=
  gpx_doc
    [pt_elem "wpt" [("lat", "46.5"); ("lon", "7.5")] (Some "500");
     trk [pt_elem "trkpt" [("lat", "46.0"); ("lon", "8.0")] (Some "1000");
          pt_elem "trkpt" [("lat", "46.001"); ("lon", "8.0")] (Some "1050")]].

(** A track whose second point has no [lon], and a route. *)
Definition broken_doc : Element :=
  gpx_doc
    [trk [pt_elem "trkpt" [("lat", "46.0"); ("lon", "8.0")] (Some "1000");
          pt_elem "trkpt" [("lat", "46.001")] (Some "1050");
          pt_elem "trkpt" [("lat", "46.002"); ("lon", "8.0")] None];
     Elem (gpx "rte") [] None
          [pt_elem "rtept" [("lat", "47.0"); ("lon", "9.0")] None]].

(** A document without any point. *)
Definition empty_doc : Element :=
  gpx_doc [Elem (gpx "metadata") [] None []].

(** A track of two points, the second without elevation. *)
Definition bare_doc : Element :=
  gpx_doc
    [trk [pt_elem "trkpt" [("lat", "46.0"); ("lon", "8.0")] (Some "1000");
          pt_elem "trkpt" [("lat", "46.001"); ("lon", "8.0")] None]].

Definition files (path : string) : result Element :=
  if String.eqb path "track.gpx" then Ok track_doc
  else if String.eqb path "broken.gpx" then Ok broken_doc
  else if String.eqb path "empty.gpx" then Ok empty_doc
  else if String.eqb path "bare.gpx" then Ok bare_doc
  else Raise FileNotFoundError.

(** The service answers every request with the height 1234.5, as a string,
    the way Swisstopo does. *)
Definition service_up (e n : float) : reply float :=
  Response 200 (Some (JObject [("height", JString "1234.5")])).

(** The service answers 500. *)
Definition service_500 (e n : float) : reply float :=
  Response 500 None.

(** The service answers 200 with a JSON object that has no height. *)
Definition service_no_height (e n : float) : reply float :=
  Response 200 (Some (JObject [("error", JString "out of bounds")])).

(** The service does not answer. *)
Definition service_down (e n : float) : reply float :=
  NoResponse.

End Sample.

(** ** Vocabulary of the statements *)

(** The point element carries both coordinates ([lat_str is None or
    lon_str is None] is false). *)
Definition has_coords (elem : Element) : bool :=
  negb (is_none (get elem "lat")) && negb (is_none (get elem "lon")).

(** The three categories of point elements of a document, in the order of
    precedence. *)
Definition trkpts (root : Element) : list Element :=
  findall_descendants root (gpx "trkpt").
Definition rtepts (root : Element) : list Element :=
  findall_descendants root (gpx "rtept").
Definition wpts (root : Element) : list Element :=
  findall_descendants root (gpx "wpt").

(** The rows of the table of a report. *)
Definition is_row {F} (l : line F) : bool :=
  match l with
  | Row _ _ _ _ _ _ _ => true
  | _ => false
  end.

Definition table_rows {F} (report : list (line F)) : list (line F) :=
  filter is_row report.

(** The summary lines for ascent and descent. *)
Definition is_ascent_line {F} (l : line F) : bool :=
  match l with
  | TotalAscent _ => true
  | _ => false
  end.

Definition is_descent_line {F} (l : line F) : bool :=
  match l with
  | TotalDescent _ => true
  | _ => false
  end.


(** The warnings about a failed lookup among the events of a run, on
    either channel ([print(..., file=sys.stderr)], [logger.warning]). *)
Definition is_lookup_warning {F} (ev : event F) : bool :=
  match ev with
  | Stderr (CouldNotFetch _ _ _) => true
  | Log WARNING (CouldNotFetch _ _ _) => true
  | _ => false
  end.

(** The report that a run emitted, if any. *)
Definition is_report {F} (ev : event F) : bool :=
  match ev with
  | PrintReport _ => true
  | WriteReport _ _ => true
  | _ => false
  end.

(** ** The profile of [gpx2lv95.py], point by point

    What the loop of [build_profile] computes, written by recursion on the
    points; [build_profile_entries] below proves the two equal. *)
Section ProfileEntries.

Context {F : Type} `{Number F} `{Runtime F}.

(** The elevation that [build_profile] resolves for a raw point. *)
Definition lv95_resolve (use_height_api : bool) (p : point F) : io F F :=
  let '(lat, lon, ele) := p in
  let '(e, n) := LV95_transform lon lat in
  Gpx2lv95.fetch_elevation ele e n use_height_api.

Definition first_entry (use_height_api : bool) (p : point F) : Gpx2lv95.entry F :=
  let '(lat, lon, _) := p in
  let '(e, n) := LV95_transform lon lat in
  {| Gpx2lv95.pt_e := e; Gpx2lv95.pt_n := n;
     Gpx2lv95.pt_ele := Some (fst (lv95_resolve use_height_api p));
     Gpx2lv95.pt_dist := zero; Gpx2lv95.pt_azimuth := zero;
     Gpx2lv95.pt_delta_ele := zero |}.

Definition next_entry (use_height_api : bool) (prev p : point F)
  : Gpx2lv95.entry F :=
  let '(lat, lon, _) := p in
  let '(prev_lat, prev_lon, _) := prev in
  let '(e, n) := LV95_transform lon lat in
  let '(azim, _, dist) := GEOD_inv prev_lon prev_lat lon lat in
  {| Gpx2lv95.pt_e := e; Gpx2lv95.pt_n := n;
     Gpx2lv95.pt_ele := Some (fst (lv95_resolve use_height_api p));
     Gpx2lv95.pt_dist := dist; Gpx2lv95.pt_azimuth := azim;
     Gpx2lv95.pt_delta_ele :=
       sub (fst (lv95_resolve use_height_api p))
           (fst (lv95_resolve use_height_api prev)) |}.

Fixpoint entries_after (use_height_api : bool) (prev : point F)
  (l : list (point F)) : list (Gpx2lv95.entry F) :=
  match l with
  | [] => []
  | p :: rest =>
      next_entry use_height_api prev p :: entries_after use_height_api p rest
  end.

Definition entries (use_height_api : bool) (points : list (point F))
  : list (Gpx2lv95.entry F) :=
  match points with
  | [] => []
  | p :: rest =>
      first_entry use_height_api p :: entries_after use_height_api p rest
  end.

End ProfileEntries.

(** ** Elevations from a real source *)
Section RealSource.

Context {F : Type} `{Number F} `{Runtime F}.

(** The reports among the events of a run, printed or written. *)
Definition emitted_reports (t : list (event F)) : list (list (line F)) :=
  flat_map (fun ev => match ev with
                      | PrintReport r => [r]
                      | WriteReport _ r => [r]
                      | _ => []
                      end) t.

(** The elevation of the point comes from the input or from a lookup that
    succeeded, for [gpx_to_swiss_kroki.py]: the service is asked at the
    coordinates that [wgs84_to_lv95] gives. *)
Definition kroki_real_source (fetch_elevation : bool) (p : point F) : bool :=
  let '(lat, lon, ele) := p in
  let '(e, n) := Kroki.wgs84_to_lv95 lat lon in
  match ele with
  | Some _ => true
  | None =>
      fetch_elevation &&
      match Kroki.try_fetch (height_api e n) with
      | Ok (Some _) => true
      | _ => false
      end
  end.

(** The same for [gpx2lv95.py], which asks at the coordinates that pyproj
    gives. *)
Definition lv95_real_source (use_height_api : bool) (p : point F) : bool :=
  let '(lat, lon, ele) := p in
  let '(e, n) := LV95_transform lon lat in
  match ele with
  | Some _ => true
  | None =>
      use_height_api &&
      match Gpx2lv95.try_fetch (height_api e n) with
      | Ok _ => true
      | Raise _ => false
      end
  end.

(** The table row that [format_profile] makes of an entry. *)
Definition profile_row (ip : nat * Gpx2lv95.entry F) : line F :=
  let pt := snd ip in
  Row (fst ip) (Gpx2lv95.pt_e pt) (Gpx2lv95.pt_n pt) (Gpx2lv95.pt_dist pt)
      (Gpx2lv95.pt_ele pt) (Gpx2lv95.pt_delta_ele pt) (Gpx2lv95.pt_azimuth pt).

(** The Swiss points that [generate_kroki] works on. *)
Definition kroki_swiss_points (fetch_elevation : bool) (points : list (point F))
  : list (Kroki.swiss_point F) :=
  fst (Kroki.resolve_points fetch_elevation (enumerate 0 points) []).

End RealSource.

(** ** Requests to the height service *)
Section Requests.

Context {F : Type} `{Number F} `{Runtime F}.

(** The point has no elevation in the input. *)
Definition missing_elevation (p : point F) : bool := is_none (snd p).



(** The ways a lookup can fail: no response, a 4xx or 5xx status, a body
    that is not JSON, a JSON object without [height]. *)
Definition lookup_fails (r : reply F) : Prop :=
  r = NoResponse
  \/ exists status body,
      r = Response status body
      /\ ((400 <=? status)%Z && (status <? 600)%Z = true
          \/ body = None
          \/ exists members,
              body = Some (JObject members)
              /\ members_get "height" members = None).

End Requests.

(** The elevations that a profile carries, entry by entry. *)
Definition profile_elevations {F} (profile : list (Gpx2lv95.entry F)) : list F :=
  flat_map (fun pt => match Gpx2lv95.pt_ele pt with
                      | Some ele => [ele]
                      | None => []
                      end) profile.

(** The runtime of the examples: the sample files, the service up. *)
Definition sample_runtime : Runtime float :=
  Sample.runtime Sample.files Sample.service_up.


(** ** src/gpx2kroki/gpx_to_swiss_kroki.py: the command line *)
Module KrokiCli.
Section Script.

Context {F : Type} `{Number F} `{Runtime F}.

(** What a run of the script comes to: the usage text on stdout and exit
    status 1, or a run of the [try] of [main]. *)
Inductive outcome : Type :=
| Usage
| Run (run : io F Z).

(** The loop of [main] over [sys.argv[2:]], with its two variables. *)
Fixpoint parse_args (args : list string) (output_file : option string)
  (fetch_elevation : bool) : option string * bool :=
  match args with
  | [] => (output_file, fetch_elevation)
  | arg :: rest =>
      if String.eqb arg "--no-fetch-elevation" then
        parse_args rest output_file false
      else if is_none output_file then
        parse_args rest (Some arg) fetch_elevation
      else parse_args rest output_file fetch_elevation
  end.

(** [main], from [sys.argv]. *)
Definition main (argv : list string) : outcome :=
  match argv with
  | _ :: gpx_file :: rest =>
      let '(output_file, fetch_elevation) := parse_args rest None true in
      Run (Kroki.main gpx_file output_file fetch_elevation)
  | _ => Usage
  end.

End Script.

Arguments outcome F : clear implicits.
Arguments Usage {F}.

End KrokiCli.

(** ** src/gpx2kroki/app.py *)
Module App.
Section Handler.

Context {F : Type} `{Number F} `{Runtime F}.

Definition UPLOAD_FOLDER : string := "uploads".

(** [os.path.join(a, b)] on POSIX: [b] alone when it is absolute, otherwise
    [a] and [b] with one separator between them. *)
Definition ends_with_slash (a : string) : bool :=
  match String.length a with
  | O => false
  | S k => String.eqb (substring k 1 a) "/"
  end.

Definition path_join (a b : string) : string :=
  if String.prefix "/" b then b
  else if String.eqb a "" || ends_with_slash a then a ++ b
  else a ++ "/" ++ b.

(** What the child process wrote on stdout and on stderr. *)
Definition on_stdout (ev : event F) : bool :=
  match ev with
  | PrintReport _ => true
  | Stdout _ => true
  | _ => false
  end.

Definition on_stderr (ev : event F) : bool :=
  match ev with
  | Stderr _ => true
  | _ => false
  end.

(** The variable [output] of [upload_file]: the captured stdout of the
    script, or ["Fehler im Skript: "] followed by its captured stderr. *)
Inductive script_output : Type :=
| Captured (stdout : list (event F))
| Fehler (stderr : list (event F)).

(** What the handler answers: a plain string, or the page [index.html]
    rendered with [output]. *)
Inductive response : Type :=
| Plain (body : string)
| Page (output : script_output).

(** What the handler does besides answering. *)
Inductive action : Type :=
| Save (filepath : string)
| Spawn (argv : list string).

(** [subprocess.run(..., capture_output=True, text=True, check=True)] and
    the [except] around it: a status other than 0 raises
    [CalledProcessError].  The interpreter is taken to start and to find
    the script, and the script to find what [file.save] wrote. *)
Definition run_script (argv : list string) : script_output :=
  match KrokiCli.main argv with
  | KrokiCli.Usage => Fehler []
  | KrokiCli.Run (status, events) =>
      if (status =? 0)%Z then Captured (filter on_stdout events)
      else Fehler (filter on_stderr events)
  end.

(** [upload_file], on [request.files] given as the file name under each
    field name. *)
Definition upload_file (files : list (string * string))
  : response * list action :=
  match assoc "file" files with
  | None => (Plain "Keine Datei ausgewählt", [])
  | Some filename =>
      if String.eqb filename "" then (Plain "Kein Dateiname", [])
      else
        let filepath := path_join UPLOAD_FOLDER filename in
        let argv := ["gpx_to_swiss_kroki.py"; filepath] in
        (Page (run_script argv), [Save filepath; Spawn ("python" :: argv)])
  end.

End Handler.

Arguments script_output F : clear implicits.
Arguments response F : clear implicits.

End App.

(** ** Vocabulary of the command line and of the web handler *)

(** The argument is the flag that turns the lookup off. *)
Definition is_no_fetch_flag (arg : string) : bool :=
  String.eqb arg "--no-fetch-elevation".

(** A track whose point has a latitude that is not a number. *)
Definition garbled_doc : Element :=
  Sample.gpx_doc
    [Sample.trk [Sample.pt_elem "trkpt" [("lat", "north"); ("lon", "8.0")]
                                (Some "1000")]].

(** A track whose second point lies at the latitude 1e200. *)
Definition far_doc : Element :=
  Sample.gpx_doc
    [Sample.trk
       [Sample.pt_elem "trkpt" [("lat", "46.0"); ("lon", "8.0")] (Some "1000");
        Sample.pt_elem "trkpt" [("lat", "1e200"); ("lon", "8.0")]
                       (Some "1050")]].

(** A file system for the web handler: the sample files and the garbled
    one, as uploaded. *)
Definition uploaded_files (path : string) : result Element :=
  if String.eqb path "uploads/garbled.gpx" then Ok garbled_doc
  else if String.prefix "uploads/" path
  then Sample.files (substring 8 (String.length path - 8) path)
  else Raise FileNotFoundError.

Definition web_runtime : Runtime float :=
  Sample.runtime uploaded_files Sample.service_500.

(** A runtime whose [float] also reads [1e200], with the far track as its
    only file. *)
Definition far_runtime : Runtime float := {|
  float_of_str := fun s =>
    if String.eqb s "1e200" then Some 1e200%float else Sample.parse_float s;
  format_2f := Sample.two_decimals;
  pow := Sample.power;
  math_sqrt := PrimFloat.sqrt;
  math_atan2 := Sample.atan2;
  math_degrees := Sample.degrees;
  LV95_transform := Sample.transform;
  GEOD_inv := Sample.geod_inv;
  ET_parse := fun path =>
    if String.eqb path "far.gpx" then Ok far_doc else Raise FileNotFoundError;
  height_api := Sample.service_500;
  pow_raises := Sample.power_raises;
  write_text := Sample.write
|}.


(** ** The table of [gpx_to_swiss_kroki.py], row by row

    What the second loop of [generate_kroki] prints, written by recursion
    on the Swiss points; [report_rows_spec] below proves the two equal. *)
Section KrokiRows.

Context {F : Type} `{Number F} `{Runtime F}.

Definition first_row (p : Kroki.swiss_point F) : line F :=
  let '(e, n, ele) := p in
  Row 1 e n zero ele zero zero.

Definition next_row (i : nat) (prev p : Kroki.swiss_point F) : line F :=
  let '(e, n, ele) := p in
  let '(prev_e, prev_n, prev_ele) := prev in
  let dist := Kroki.calculate_distance prev_e prev_n e n in
  let azimuth := Kroki.calculate_azimuth prev_e prev_n e n in
  match ele, prev_ele with
  | Some ele, Some prev_ele =>
      Row i e n dist (Some ele) (sub ele prev_ele) azimuth
  | _, _ => Row i e n dist None zero azimuth
  end.

Fixpoint rows_after (i : nat) (prev : Kroki.swiss_point F)
  (l : list (Kroki.swiss_point F)) : list (line F) :=
  match l with
  | [] => []
  | p :: rest => next_row i prev p :: rows_after (S i) p rest
  end.

Definition rows (swiss_points : list (Kroki.swiss_point F)) : list (line F) :=
  match swiss_points with
  | [] => []
  | p :: rest => first_row p :: rows_after 2 p rest
  end.

(** [f] over the pairs of neighbours of a list. *)
Fixpoint pairwise {A B} (f : A -> A -> B) (l : list A) : list B :=
  match l with
  | a :: (b :: _) as rest => f a b :: pairwise f rest
  | _ => []
  end.

(** The distance and the elevation that a table row shows. *)
Definition row_dist (l : line F) : F :=
  match l with
  | Row _ _ _ dist _ _ _ => dist
  | _ => zero
  end.

Definition row_elev (l : line F) : option F :=
  match l with
  | Row _ _ _ _ elev _ _ => elev
  | _ => None
  end.

End KrokiRows.

(** ** Vocabulary of the traffic with the height service *)



(** ** What a run needs to get through *)
Section Completes.

Context {F : Type} `{Number F} `{Runtime F}.

(** The report of [gpx2lv95.py] can be delivered: it is printed, or the
    output file can be written. *)
Definition lv95_deliverable (output_file : option string) : bool :=
  match output_file with
  | Some path => is_none (write_text path)
  | None => true
  end.

(** The same for [gpx_to_swiss_kroki.py], which prints when the name of
    the output file is empty. *)
Definition kroki_deliverable (output_file : option string) : bool :=
  match output_file with
  | Some path => String.eqb path "" || is_none (write_text path)
  | None => true
  end.

(** A run of [generate_kroki] on the points raises [OverflowError]: in the
    conversion of a point, or in the distance between two neighbours. *)
Definition kroki_overflows (fetch_elevation : bool) (points : list (point F))
  : bool :=
  Kroki.conversion_raises points
  || Kroki.distance_raises (kroki_swiss_points fetch_elevation points).

End Completes.

(** ** Binary64 without rounding *)

(** The number that a float is; [None] for the infinities and nan. *)
Definition exact_value (x : float) : option Qc :=
  match Prim2SF x with
  | S754_zero _ => Some 0%Qc
  | S754_finite s m e =>
      Some (Q2Qc (inject_Z (cond_Zopp s (Zpos m)) * 2 ^ e)%Q)
  | _ => None
  end.

(** The same, with 0 for the infinities and nan. *)
Definition number (x : float) : Qc :=
  match exact_value x with
  | Some q => q
  | None => 0%Qc
  end.

Definition is_number (x : float) : bool := negb (is_none (exact_value x)).

(** The float [x] is the number [q]. *)
Definition is_exactly (x : float) (q : Qc) : bool :=
  match exact_value x with
  | Some v => Qc_eq_bool v q
  | None => false
  end.

(** [a - b] and [a + b] come out without rounding and without overflow:
    the operands are numbers and the result is their difference, their
    sum. *)
Definition exact_sub (a b : float) : bool :=
  is_number a && is_number b
  && is_exactly (PrimFloat.sub a b) (number a - number b)%Qc.

Definition exact_add (a b : float) : bool :=
  is_number a && is_number b
  && is_exactly (PrimFloat.add a b) (number a + number b)%Qc.

(** Every addition of [sum(l)] is exact.  (The compensation that CPython
    3.12 and later add to [sum] is made of the rounding errors of these
    additions, and stays 0.0 when there is none.) *)
Fixpoint exact_sum_from (acc : float) (l : list float) : bool :=
  match l with
  | [] => true
  | x :: rest => exact_add acc x && exact_sum_from (PrimFloat.add acc x) rest
  end.

Definition exact_sum (l : list float) : bool := exact_sum_from zero l.

(** No operation behind the ascent and the descent of [generate_kroki]
    rounds: the differences of neighbours, taken both ways, and the
    additions of the two sums. *)
Definition kroki_no_rounding (eles : list float) : bool :=
  forallb is_number eles
  && forallb (fun b : bool => b)
       (pairwise (fun prev cur => exact_sub cur prev && exact_sub prev cur) eles)
  && exact_sum (pairwise (fun prev cur => py_max zero (sub cur prev)) eles)
  && exact_sum (pairwise (fun prev cur => py_max zero (sub prev cur)) eles).

(** The same for [build_profile] and [format_profile], on the resolved
    elevations: the difference of neighbours, which the profile stores,
    and the additions of the two sums. *)
Definition lv95_no_rounding (eles : list float) : bool :=
  forallb is_number eles
  && forallb (fun b : bool => b)
       (pairwise (fun prev cur => exact_sub cur prev) eles)
  && exact_sum (pairwise (fun prev cur => py_max zero (sub cur prev)) eles)
  && exact_sum (pairwise (fun prev cur => py_max zero (opp (sub cur prev)))
                         eles).

(** [a - b] as numbers, when both floats are numbers. *)
Definition exact_difference (a b : float) : option Qc :=
  match exact_value a, exact_value b with
  | Some x, Some y => Some (x - y)%Qc
  | _, _ => None
  end.

(** [0 <= x] on binary64: [x] is neither negative nor nan. *)
Definition nonnegative (x : float) : bool := PrimFloat.leb zero x.

(** * Verification *)

(** ** Generic facts *)

Lemma comprehension_length {A B} (f : A -> result B) (l : list A) (bs : list B) :
  comprehension f l = Ok bs -> List.length bs = List.length l.
Proof.
  revert bs; induction l as [| a rest IH]; intros bs; simpl.
  - intros [= <-]. reflexivity.
  - destruct (f a) as [b | e]; simpl; [| discriminate].
    destruct (comprehension f rest) as [bs' | e]; simpl; [| discriminate].
    intros [= <-]. simpl. f_equal. apply IH. reflexivity.
Qed.

Lemma filter_all {A} (f : A -> bool) (l : list A) :
  forallb f l = true -> filter f l = l.
Proof.
  induction l as [| a rest IH]; simpl; [reflexivity |].
  intros Hall. apply andb_true_iff in Hall as [Ha Hrest].
  rewrite Ha, IH by assumption. reflexivity.
Qed.

(** The value and the events of two computations in sequence. *)
Lemma bind_value {F A B} (m : io F A) (k : A -> io F B) :
  fst (bind m k) = fst (k (fst m)).
Proof. destruct m as [a t]; simpl. destruct (k a); reflexivity. Qed.

Lemma bind_events {F A B} (m : io F A) (k : A -> io F B) :
  snd (bind m k) = snd m ++ snd (k (fst m)).
Proof. destruct m as [a t]; simpl. destruct (k a); reflexivity. Qed.

Section Extraction.

Context {F : Type} `{Number F} `{Runtime F}.

(** The loop of the Kroki extractor is the comprehension of the other one
    over the elements that carry both coordinates. *)
Lemma collect_filter (elems : list Element) (acc : list (point F)) :
  Kroki.collect elems acc =
  (pts <-? comprehension Gpx2lv95._extract (filter has_coords elems) ;
   Ok (acc ++ pts)).
Proof.
  revert acc; induction elems as [| pt rest IH]; intros acc.
  - simpl. rewrite app_nil_r. reflexivity.
  - cbn [Kroki.collect filter].
    destruct (get pt "lat") as [lat_str |] eqn:Hlat;
      [destruct (get pt "lon") as [lon_str |] eqn:Hlon |].
    + assert (Hc : has_coords pt = true)
        by (unfold has_coords; rewrite Hlat, Hlon; reflexivity).
      rewrite Hc. cbn [comprehension].
      unfold Gpx2lv95._extract at 1. rewrite Hlat, Hlon.
      destruct (py_float (Some lat_str)) as [lat | e]; [| reflexivity].
      destruct (py_float (Some lon_str)) as [lon | e]; [| reflexivity].
      destruct (read_ele pt) as [ele | e]; [| reflexivity].
      cbn [rbind]. rewrite IH.
      destruct (comprehension Gpx2lv95._extract (filter has_coords rest))
        as [pts | e]; [| reflexivity].
      cbn [rbind]. rewrite <- app_assoc. reflexivity.
    + assert (Hc : has_coords pt = false)
        by (unfold has_coords; rewrite Hlat, Hlon; reflexivity).
      rewrite Hc. apply IH.
    + assert (Hc : has_coords pt = false)
        by (unfold has_coords; rewrite Hlat; reflexivity).
      rewrite Hc. apply IH.
Qed.

Lemma collect_nil (elems : list Element) :
  Kroki.collect elems [] =
  comprehension Gpx2lv95._extract (filter has_coords elems).
Proof.
  rewrite collect_filter.
  destruct (comprehension _ _); reflexivity.
Qed.

(** An element without one of its coordinates makes [_extract] raise:
    [TypeError] from [float(None)], unless the latitude is there and is not
    a number, which raises [ValueError] first. *)
Lemma extract_without_coords (elem : Element) :
  has_coords elem = false ->
  exists exc,
    Gpx2lv95._extract elem = Raise exc
    /\ (exc = TypeError \/ exc = ValueError).
Proof.
  unfold has_coords, Gpx2lv95._extract. intros Hc.
  destruct (get elem "lat") as [lat_str |]; simpl in *.
  - destruct (get elem "lon") as [lon_str |]; simpl in *; [discriminate |].
    unfold py_float. destruct (float_of_str lat_str); simpl; eauto.
  - eauto.
Qed.

Lemma comprehension_raises {A B} (f : A -> result B) (l : list A) (a : A) :
  In a l -> (exists exc, f a = Raise exc) ->
  exists exc, comprehension f l = Raise exc.
Proof.
  intros Hin [exc Hexc].
  induction l as [| b rest IH]; simpl in *; [contradiction |].
  destruct Hin as [-> | Hin].
  - rewrite Hexc. simpl. eauto.
  - destruct (f b) as [v | e]; simpl; [| eauto].
    destruct (IH Hin) as [e He]. rewrite He. simpl. eauto.
Qed.

End Extraction.

(** ** The point extractors *)

Section ParseGpx.

Context {F : Type} `{Number F} `{Runtime F}.

(** C3.  Point extraction goes by a fixed precedence, track points, then
    route points, then way-points, and returns the first category that
    yields a point: once a category has yielded one, the result is what that
    category alone yields, whatever the later ones hold.  For
    [gpx_to_swiss_kroki.py] a category yields what its loop appends to the
    empty list; for [gpx2lv95.py] a category counts as soon as it has an
    element, and what it yields is the comprehension over its elements. *)
Theorem parse_gpx_precedence (gpx_file : string) (root : Element) :
  ET_parse gpx_file = Ok root ->
  (forall p ps,
      Kroki.collect (trkpts root) [] = Ok (p :: ps) ->
      Kroki.parse_gpx gpx_file = Ok (p :: ps))
  /\ (Kroki.collect (trkpts root) [] = Ok [] ->
      forall p ps,
        Kroki.collect (rtepts root) [] = Ok (p :: ps) ->
        Kroki.parse_gpx gpx_file = Ok (p :: ps))
  /\ (Kroki.collect (trkpts root) [] = Ok [] ->
      Kroki.collect (rtepts root) [] = Ok [] ->
      Kroki.parse_gpx gpx_file = Kroki.collect (wpts root) [])
  /\ (trkpts root <> [] ->
      Gpx2lv95.parse_gpx gpx_file =
      comprehension Gpx2lv95._extract (trkpts root))
  /\ (trkpts root = [] -> rtepts root <> [] ->
      Gpx2lv95.parse_gpx gpx_file =
      comprehension Gpx2lv95._extract (rtepts root))
  /\ (trkpts root = [] -> rtepts root = [] ->
      Gpx2lv95.parse_gpx gpx_file =
      comprehension Gpx2lv95._extract (wpts root)).
Proof.
  intros Hroot.
  unfold Kroki.parse_gpx, Gpx2lv95.parse_gpx. rewrite Hroot. cbn [rbind].
  unfold Kroki.points_of_root, Gpx2lv95.points_of_root.
  fold (trkpts root) (rtepts root) (wpts root).
  repeat split.
  - intros p ps Htrk. rewrite Htrk. reflexivity.
  - intros Htrk p ps Hrte. rewrite Htrk. cbn [rbind is_empty].
    rewrite Hrte. reflexivity.
  - intros Htrk Hrte. rewrite Htrk. cbn [rbind is_empty].
    rewrite Hrte. cbn [rbind is_empty].
    destruct (Kroki.collect (wpts root) []); reflexivity.
  - intros Htrk. destruct (trkpts root); [contradiction | reflexivity].
  - intros -> Hrte. destruct (rtepts root); [contradiction | reflexivity].
  - intros -> ->. reflexivity.
Qed.

(** C10.  On a document that parses and in which every track point, route
    point and way-point carries both [lat] and [lon], the two extractors
    return the same thing: the same triples in the same order, or the same
    exception. *)
Theorem parse_gpx_agree (gpx_file : string) (root : Element) :
  ET_parse gpx_file = Ok root ->
  forallb has_coords (trkpts root) = true ->
  forallb has_coords (rtepts root) = true ->
  forallb has_coords (wpts root) = true ->
  Kroki.parse_gpx gpx_file = Gpx2lv95.parse_gpx gpx_file.
Proof.
  intros Hroot Htrk Hrte Hwpt.
  unfold Kroki.parse_gpx, Gpx2lv95.parse_gpx. rewrite Hroot. cbn [rbind].
  unfold Kroki.points_of_root, Gpx2lv95.points_of_root.
  fold (trkpts root) (rtepts root) (wpts root).
  rewrite collect_nil, (filter_all _ _ Htrk).
  destruct (trkpts root) as [| t ts] eqn:Etrk.
  - cbn [comprehension rbind is_empty list_or].
    rewrite collect_nil, (filter_all _ _ Hrte).
    destruct (rtepts root) as [| r rs] eqn:Erte.
    + cbn [comprehension rbind is_empty list_or].
      rewrite collect_nil, (filter_all _ _ Hwpt).
      destruct (comprehension Gpx2lv95._extract (wpts root)); reflexivity.
    + cbn [list_or].
      destruct (comprehension Gpx2lv95._extract (r :: rs)) as [pts | e] eqn:Epts;
        [| reflexivity].
      apply comprehension_length in Epts.
      destruct pts; [discriminate | reflexivity].
  - cbn [list_or].
    destruct (comprehension Gpx2lv95._extract (t :: ts)) as [pts | e] eqn:Epts;
      [| reflexivity].
    apply comprehension_length in Epts.
    destruct pts; [discriminate | reflexivity].
Qed.

(** C7, as the code has it.  The two extractors treat a point element
    without [lat] or [lon] differently.  [gpx2lv95.py] skips nothing: such an
    element in the category it reads (the first one that has an element)
    makes [_extract] raise on it and the whole extraction fail.
    [gpx_to_swiss_kroki.py] never fails on it: each loop passes over exactly
    these elements and keeps the others of its category, in order, so that
    a track with a point left after that is the category returned. *)
Theorem parse_gpx_missing_coords (gpx_file : string) (root : Element) :
  ET_parse gpx_file = Ok root ->
  (forall elem,
      In elem (list_or (list_or (trkpts root) (rtepts root)) (wpts root)) ->
      has_coords elem = false ->
      (exists exc,
          Gpx2lv95._extract elem = Raise exc
          /\ (exc = TypeError \/ exc = ValueError))
      /\ (exists exc, Gpx2lv95.parse_gpx gpx_file = Raise exc))
  /\ (forall elems,
      Kroki.collect elems [] =
      comprehension Gpx2lv95._extract (filter has_coords elems))
  /\ (forall p ps,
      comprehension Gpx2lv95._extract (filter has_coords (trkpts root))
      = Ok (p :: ps) ->
      Kroki.parse_gpx gpx_file = Ok (p :: ps)).
Proof.
  intros Hroot. split; [| split].
  - intros elem Hin Hc.
    pose proof (extract_without_coords elem Hc) as Hex.
    split; [exact Hex |].
    unfold Gpx2lv95.parse_gpx. rewrite Hroot. cbn [rbind].
    unfold Gpx2lv95.points_of_root.
    fold (trkpts root) (rtepts root) (wpts root).
    destruct Hex as (exc & Hexc & _).
    eapply comprehension_raises; eauto.
  - apply collect_nil.
  - intros p ps Htrk.
    unfold Kroki.parse_gpx. rewrite Hroot. cbn [rbind].
    unfold Kroki.points_of_root. fold (trkpts root).
    rewrite collect_nil, Htrk. reflexivity.
Qed.

End ParseGpx.

(** [track.gpx] has a way-point and a track: the track is returned. *)
Lemma parse_gpx_precedence_witness :
  Kroki.parse_gpx (H0 := sample_runtime) "track.gpx"
  = Ok [(46, 8, Some 1000); (46.001, 8, Some 1050)]%float
  /\ Gpx2lv95.parse_gpx (H0 := sample_runtime) "track.gpx"
     = Ok [(46, 8, Some 1000); (46.001, 8, Some 1050)]%float.
Proof.
  destruct (parse_gpx_precedence (H0 := sample_runtime) "track.gpx"
              (root := Sample.track_doc) eq_refl)
    as (Ktrk & _ & _ & Ltrk & _ & _).
  split.
  - apply Ktrk. vm_compute. reflexivity.
  - rewrite Ltrk by (vm_compute; discriminate). vm_compute. reflexivity.
Defined.

(** Every point element of [track.gpx] has both coordinates. *)
Lemma parse_gpx_agree_witness :
  Kroki.parse_gpx (H0 := sample_runtime) "track.gpx"
  = Gpx2lv95.parse_gpx (H0 := sample_runtime) "track.gpx".
Proof.
  apply (parse_gpx_agree (H0 := sample_runtime) "track.gpx"
           (root := Sample.track_doc)); vm_compute; reflexivity.
Defined.

(** C7, as the spec has it, fails on [gpx_to_swiss_kroki.py]: the track
    of [broken.gpx] has a point without [lon], and parsing succeeds with the
    two other points. *)
Lemma parse_gpx_missing_coords_counterexample :
  (exists elem,
      In elem (trkpts Sample.broken_doc) /\ get elem "lon" = None)
  /\ Kroki.parse_gpx (H0 := sample_runtime) "broken.gpx"
     = Ok [(46, 8, Some 1000); (46.002, 8, None)]%float.
Proof.
  split.
  - exists (Sample.pt_elem "trkpt" [("lat", "46.001")] (Some "1050")).
    split; [vm_compute; auto | reflexivity].
  - vm_compute. reflexivity.
Qed.

(** On [broken.gpx] the first extractor raises and the second keeps the
    two track points that have both coordinates. *)
Lemma parse_gpx_missing_coords_witness :
  (exists exc, Gpx2lv95.parse_gpx (H0 := sample_runtime) "broken.gpx" = Raise exc)
  /\ Kroki.collect (H0 := sample_runtime) (trkpts Sample.broken_doc) []
     = Ok [(46, 8, Some 1000); (46.002, 8, None)]%float.
Proof.
  destruct (parse_gpx_missing_coords (H0 := sample_runtime) "broken.gpx"
              (root := Sample.broken_doc) eq_refl) as (Hlv95 & Hkroki & _).
  split.
  - apply (Hlv95 (Sample.pt_elem "trkpt" [("lat", "46.001")] (Some "1050"))).
    + vm_compute. auto.
    + reflexivity.
  - rewrite Hkroki. vm_compute. reflexivity.
Defined.

(** ** The profile builder of [gpx2lv95.py] *)

Section BuildProfile.

Context {F : Type} `{Number F} `{Runtime F}.

Variable use_height_api : bool.

Lemma last_ele_snoc (profile : list (Gpx2lv95.entry F)) (pt : Gpx2lv95.entry F) :
  Gpx2lv95.last_ele (profile ++ [pt]) = Gpx2lv95.pt_ele pt.
Proof.
  unfold Gpx2lv95.last_ele. rewrite length_app. simpl.
  replace (List.length profile + 1 - 1)%nat with (List.length profile) by lia.
  rewrite nth_error_app2 by lia. rewrite Nat.sub_diag. reflexivity.
Qed.

Lemma entries_after_snoc (prev q p : point F) (ds : list (point F)) :
  entries_after use_height_api prev ((ds ++ [q]) ++ [p]) =
  entries_after use_height_api prev (ds ++ [q])
  ++ [next_entry use_height_api q p].
Proof.
  revert prev; induction ds as [| d ds IH]; intros prev; simpl.
  - reflexivity.
  - rewrite IH. reflexivity.
Qed.

Lemma entries_snoc (done : list (point F)) (q p : point F) :
  entries use_height_api ((done ++ [q]) ++ [p]) =
  entries use_height_api (done ++ [q]) ++ [next_entry use_height_api q p].
Proof.
  destruct done as [| d ds]; simpl.
  - reflexivity.
  - rewrite entries_after_snoc. reflexivity.
Qed.

Lemma entries_last_ele (done : list (point F)) (q : point F) :
  Gpx2lv95.last_ele (entries use_height_api (done ++ [q])) =
  Some (fst (lv95_resolve use_height_api q)).
Proof.
  destruct done as [| d ds] using rev_ind.
  - simpl. unfold first_entry. destruct q as [[lat lon] ele].
    destruct (LV95_transform lon lat). reflexivity.
  - rewrite entries_snoc, last_ele_snoc.
    unfold next_entry. destruct q as [[lat lon] ele], d as [[plat plon] pele].
    destruct (LV95_transform lon lat).
    destruct (GEOD_inv plon plat lon lat) as [[az baz] dist]. reflexivity.
Qed.

(** One iteration at index 0, from the initial values of the loop
    variables. *)
Lemma step_first (points : list (point F)) (st : Gpx2lv95.loop_state F)
  (p : point F) :
  Gpx2lv95.profile st = [] ->
  Gpx2lv95.dist st = zero -> Gpx2lv95.azim st = zero ->
  Gpx2lv95.d_ele st = zero ->
  Gpx2lv95.profile (fst (Gpx2lv95.step points use_height_api st 0 p)) =
  [first_entry use_height_api p].
Proof.
  intros Hp Hd Ha He. destruct p as [[lat lon] ele].
  unfold Gpx2lv95.step, first_entry, lv95_resolve.
  destruct (LV95_transform lon lat) as [e n].
  rewrite bind_value. cbn. rewrite Hp, Hd, Ha, He. reflexivity.
Qed.

(** One iteration at a later index. *)
Lemma step_next (done rest : list (point F)) (st : Gpx2lv95.loop_state F)
  (q p : point F) :
  Gpx2lv95.profile st = entries use_height_api (done ++ [q]) ->
  Gpx2lv95.profile
    (fst (Gpx2lv95.step ((done ++ [q]) ++ p :: rest) use_height_api st
                        (List.length (done ++ [q])) p)) =
  entries use_height_api ((done ++ [q]) ++ [p]).
Proof.
  intros Hp. rewrite entries_snoc, <- Hp.
  destruct p as [[lat lon] ele].
  unfold Gpx2lv95.step, next_entry, lv95_resolve.
  destruct (LV95_transform lon lat) as [e n].
  rewrite bind_value.
  rewrite length_app. cbn [List.length].
  replace (List.length done + 1 - 1)%nat with (List.length done) by lia.
  replace (0 <? List.length done + 1)%nat with true
    by (symmetry; apply Nat.ltb_lt; lia).
  rewrite <- app_assoc. cbn [app]. rewrite nth_middle.
  destruct q as [[prev_lat prev_lon] prev_ele].
  destruct (GEOD_inv prev_lon prev_lat lon lat) as [[azim back] dist].
  rewrite Hp, entries_last_ele. cbn.
  destruct (LV95_transform prev_lon prev_lat). reflexivity.
Qed.

Lemma build_loop_entries (l done : list (point F)) (st : Gpx2lv95.loop_state F) :
  Gpx2lv95.profile st = entries use_height_api done ->
  (done = [] ->
   Gpx2lv95.dist st = zero /\ Gpx2lv95.azim st = zero
   /\ Gpx2lv95.d_ele st = zero) ->
  Gpx2lv95.profile
    (fst (Gpx2lv95.build_loop (done ++ l) use_height_api
            (enumerate (List.length done) l) st)) =
  entries use_height_api (done ++ l).
Proof.
  revert done st; induction l as [| p rest IH]; intros done st Hp Hz.
  - simpl. rewrite app_nil_r. exact Hp.
  - cbn [enumerate Gpx2lv95.build_loop]. rewrite bind_value.
    replace (done ++ p :: rest) with ((done ++ [p]) ++ rest)
      by (rewrite <- app_assoc; reflexivity).
    replace (S (List.length done)) with (List.length (done ++ [p]))
      by (rewrite length_app; simpl; lia).
    apply IH.
    + rewrite <- app_assoc. cbn [app].
      destruct done as [| d ds] using rev_ind.
      * destruct (Hz eq_refl) as (Hd & Ha & He).
        apply step_first; assumption.
      * apply step_next. exact Hp.
    + intros Hnil. destruct done; discriminate.
Qed.

(** The loop computes the entries. *)
Lemma build_profile_entries (points : list (point F)) :
  fst (Gpx2lv95.build_profile points use_height_api) =
  entries use_height_api points.
Proof.
  unfold Gpx2lv95.build_profile. rewrite bind_value. cbn [ret fst].
  apply build_loop_entries with (done := []); [reflexivity | auto].
Qed.

End BuildProfile.

(** ** The resolution loop and the report of [gpx_to_swiss_kroki.py] *)
Section KrokiReport.

Context {F : Type} `{Number F} `{Runtime F}.

Variable fetch_elevation : bool.

Lemma resolve_points_value (l : list (nat * point F))
  (acc : list (Kroki.swiss_point F)) :
  fst (Kroki.resolve_points fetch_elevation l acc) =
  acc ++ map (fun ip => fst (Kroki.resolve_point fetch_elevation (fst ip) (snd ip))) l.
Proof.
  revert acc; induction l as [| [i p] rest IH]; intros acc; simpl.
  - rewrite app_nil_r. reflexivity.
  - rewrite bind_value, IH, <- app_assoc. reflexivity.
Qed.

Lemma resolve_points_events (l : list (nat * point F))
  (acc : list (Kroki.swiss_point F)) :
  snd (Kroki.resolve_points fetch_elevation l acc) =
  flat_map (fun ip => snd (Kroki.resolve_point fetch_elevation (fst ip) (snd ip))) l.
Proof.
  revert acc; induction l as [| [i p] rest IH]; intros acc; simpl.
  - reflexivity.
  - rewrite bind_events, IH. reflexivity.
Qed.

(** What the loop leaves as the elevation of a point. *)
Lemma resolve_point_elevation (i : nat) (p : point F) :
  is_none (snd (fst (Kroki.resolve_point fetch_elevation i p))) =
  negb (kroki_real_source fetch_elevation p).
Proof.
  destruct p as [[lat lon] ele].
  unfold Kroki.resolve_point, kroki_real_source.
  destruct (Kroki.wgs84_to_lv95 lat lon) as [e n].
  destruct ele as [v |]; cbn [is_none andb]; [reflexivity |].
  destruct fetch_elevation; cbn [andb]; [| reflexivity].
  unfold Kroki.fetch_elevation_swisstopo.
  destruct (Kroki.try_fetch (height_api e n)) as [[v |] | exc]; reflexivity.
Qed.

Lemma all_elevations_none (sps : list (Kroki.swiss_point F)) :
  is_none (Kroki.all_elevations sps) = existsb (fun sp => is_none (snd sp)) sps.
Proof.
  induction sps as [| [[e n] [v |]] rest IH]; simpl; try reflexivity.
  destruct (Kroki.all_elevations rest); simpl in *; exact IH.
Qed.

Lemma row_is_row (sps : list (Kroki.swiss_point F)) (i : nat)
  (sp : Kroki.swiss_point F) :
  is_row (Kroki.row sps i sp) = true.
Proof.
  unfold Kroki.row. destruct sp as [[e n] ele].
  destruct (i =? 1)%nat; [reflexivity |].
  destruct (nth (i - 2) sps (e, n, ele)) as [[pe pn] pele].
  destruct ele, pele; reflexivity.
Qed.

Lemma filter_rows_only (A : Type) (f : A -> line F) (l : list A) :
  (forall a, is_row (f a) = true) ->
  filter is_row (map f l) = map f l
  /\ filter is_ascent_line (map f l) = []
  /\ filter is_descent_line (map f l) = [].
Proof.
  intros Hrow. induction l as [| a rest (IH1 & IH2 & IH3)]; simpl; [auto |].
  specialize (Hrow a). destruct (f a); try discriminate; simpl.
  rewrite IH1. auto.
Qed.

(** The rows of the table are the rows of the second loop. *)
Lemma report_rows (sps : list (Kroki.swiss_point F)) :
  table_rows (Kroki.report sps) =
  map (fun ip => Kroki.row sps (fst ip) (snd ip)) (enumerate 1 sps).
Proof.
  unfold table_rows, Kroki.report.
  destruct (filter_rows_only
              (fun ip => Kroki.row sps (fst ip) (snd ip)) (enumerate 1 sps))
    as (Hrows & _ & _); [intros; apply row_is_row |].
  cbn [app filter is_row]. rewrite !filter_app, Hrows.
  destruct (Kroki.all_elevations sps); cbn; rewrite app_nil_r; reflexivity.
Qed.

(** The ascent and descent lines of the report: both when every elevation
    is known, none otherwise. *)
Lemma report_totals (sps : list (Kroki.swiss_point F)) :
  match Kroki.all_elevations sps with
  | Some eles =>
      filter is_ascent_line (Kroki.report sps)
      = [TotalAscent (Kroki.total_ascent eles)]
      /\ filter is_descent_line (Kroki.report sps)
         = [TotalDescent (Kroki.total_descent eles)]
  | None =>
      filter is_ascent_line (Kroki.report sps) = []
      /\ filter is_descent_line (Kroki.report sps) = []
  end.
Proof.
  unfold Kroki.report.
  destruct (filter_rows_only
              (fun ip => Kroki.row sps (fst ip) (snd ip)) (enumerate 1 sps))
    as (_ & Hasc & Hdesc); [intros; apply row_is_row |].
  destruct (Kroki.all_elevations sps);
    cbn [app filter is_ascent_line is_descent_line];
    rewrite !filter_app, Hasc, Hdesc; cbn; auto.
Qed.

End KrokiReport.

(** ** The report of [gpx2lv95.py] *)
Section Lv95Report.

Context {F : Type} `{Number F} `{Runtime F}.

Lemma entries_after_resolved (use_height_api : bool) (prev : point F)
  (l : list (point F)) :
  forallb (fun pt => negb (is_none (Gpx2lv95.pt_ele pt)))
          (entries_after use_height_api prev l) = true.
Proof.
  revert prev; induction l as [| p rest IH]; intros prev; simpl; [reflexivity |].
  rewrite IH, andb_true_r.
  unfold next_entry. destruct p as [[lat lon] ele], prev as [[plat plon] pele].
  destruct (LV95_transform lon lat).
  destruct (GEOD_inv plon plat lon lat) as [[az baz] dist]. reflexivity.
Qed.

(** No entry that [build_profile] makes has [None] for its elevation. *)
Lemma build_profile_resolved (points : list (point F)) (use_height_api : bool) :
  forallb (fun pt => negb (is_none (Gpx2lv95.pt_ele pt)))
          (fst (Gpx2lv95.build_profile points use_height_api)) = true.
Proof.
  rewrite build_profile_entries. destruct points as [| p rest]; [reflexivity |].
  cbn [entries forallb]. rewrite entries_after_resolved, andb_true_r.
  unfold first_entry. destruct p as [[lat lon] ele].
  destruct (LV95_transform lon lat). reflexivity.
Qed.

Lemma format_profile_rows (profile : list (Gpx2lv95.entry F)) :
  table_rows (Gpx2lv95.format_profile profile) =
  map profile_row (enumerate 1 profile).
Proof.
  unfold table_rows, Gpx2lv95.format_profile.
  destruct (filter_rows_only profile_row (enumerate 1 profile))
    as (Hrows & _ & _); [reflexivity |].
  fold (@profile_row F).
  cbn [app filter is_row]. rewrite !filter_app, Hrows.
  destruct (forallb _ profile); cbn; rewrite app_nil_r; reflexivity.
Qed.

Lemma format_profile_totals (profile : list (Gpx2lv95.entry F)) :
  forallb (fun pt => negb (is_none (Gpx2lv95.pt_ele pt))) profile = true ->
  filter is_ascent_line (Gpx2lv95.format_profile profile)
  = [TotalAscent (Gpx2lv95.total_ascent profile)]
  /\ filter is_descent_line (Gpx2lv95.format_profile profile)
     = [TotalDescent (Gpx2lv95.total_descent profile)].
Proof.
  intros Hall. unfold Gpx2lv95.format_profile. rewrite Hall.
  destruct (filter_rows_only profile_row (enumerate 1 profile))
    as (_ & Hasc & Hdesc); [reflexivity |].
  fold (@profile_row F).
  cbn [app filter is_ascent_line is_descent_line].
  rewrite !filter_app, Hasc, Hdesc. cbn. auto.
Qed.

End Lv95Report.

(** ** Ascent and descent in the report *)
Section Totals.

Context {F : Type} `{Number F} `{Runtime F}.

(** A Swiss point is left without elevation exactly when its elevation has
    no real source. *)
Lemma swiss_points_missing (points : list (point F)) (fetch_elevation : bool) :
  existsb (fun sp : Kroki.swiss_point F => is_none (snd sp))
          (kroki_swiss_points fetch_elevation points)
  = negb (forallb (kroki_real_source fetch_elevation) points).
Proof.
  unfold kroki_swiss_points. rewrite resolve_points_value. cbn [app].
  generalize 0%nat. induction points as [| p rest IH]; intros k;
    [reflexivity |].
  cbn [enumerate map existsb forallb fst snd].
  rewrite resolve_point_elevation, IH, negb_andb. reflexivity.
Qed.

(** C1 on [gpx2lv95.py].  The report carries the ascent and the descent
    line also when a point's elevation did not come from a real source:
    [fetch_elevation] puts 0.0 in its place, [build_profile] stores it as
    the elevation, and the test of [format_profile] for [None] never
    fails. *)
Theorem lv95_totals_despite_sentinel (points : list (point F))
  (use_height_api : bool) :
  forallb (lv95_real_source use_height_api) points = false ->
  let profile := fst (Gpx2lv95.build_profile points use_height_api) in
  filter is_ascent_line (Gpx2lv95.format_profile profile)
  = [TotalAscent (Gpx2lv95.total_ascent profile)]
  /\ filter is_descent_line (Gpx2lv95.format_profile profile)
     = [TotalDescent (Gpx2lv95.total_descent profile)].
Proof.
  intros _ profile. apply format_profile_totals.
  apply build_profile_resolved.
Qed.

(** On [gpx_to_swiss_kroki.py] the ascent and the descent line are in the
    report exactly when every point's elevation comes from the input or
    from a lookup that succeeded. *)
Theorem kroki_totals_iff_real_source (points : list (point F))
  (fetch_elevation : bool) :
  let text := Kroki.report (kroki_swiss_points fetch_elevation points) in
  (forallb (kroki_real_source fetch_elevation) points = true ->
   exists ascent descent,
     filter is_ascent_line text = [TotalAscent ascent]
     /\ filter is_descent_line text = [TotalDescent descent])
  /\ (forallb (kroki_real_source fetch_elevation) points = false ->
      filter is_ascent_line text = []
      /\ filter is_descent_line text = []).
Proof.
  intros text. subst text.
  pose proof (report_totals (kroki_swiss_points fetch_elevation points)) as Htot.
  assert (Hnone : is_none (Kroki.all_elevations
                             (kroki_swiss_points fetch_elevation points))
                  = negb (forallb (kroki_real_source fetch_elevation) points))
    by (rewrite all_elevations_none; apply swiss_points_missing).
  split; intros Hall; rewrite Hall in Hnone;
    destruct (Kroki.all_elevations _) as [eles |]; try discriminate.
  - destruct Htot as [Ha Hd]. eauto.
  - exact Htot.
Qed.

End Totals.

(** A track of two points, the second without elevation, lookup off: the
    report gives a descent of 1000 m, from 1000 m down to the 0.0 that
    stands for the unknown elevation. *)
Lemma lv95_totals_despite_sentinel_witness :
  forallb (lv95_real_source (H0 := sample_runtime) false)
          [(46, 8, Some 1000); (46.001, 8, None)]%float = false
  /\ filter is_ascent_line
       (Gpx2lv95.format_profile
          (fst (Gpx2lv95.build_profile (H0 := sample_runtime)
                  [(46, 8, Some 1000); (46.001, 8, None)]%float false)))
     = [TotalAscent 0%float]
  /\ filter is_descent_line
       (Gpx2lv95.format_profile
          (fst (Gpx2lv95.build_profile (H0 := sample_runtime)
                  [(46, 8, Some 1000); (46.001, 8, None)]%float false)))
     = [TotalDescent 1000%float].
Proof.
  split; [reflexivity |].
  destruct (lv95_totals_despite_sentinel (H0 := sample_runtime)
              [(46, 8, Some 1000); (46.001, 8, None)]%float false eq_refl)
    as [Ha Hd].
  split; [rewrite Ha | rewrite Hd]; vm_compute; reflexivity.
Defined.

(** The end of the two reports for that track, as text: the summary of
    [gpx2lv95.py] with the ascent and descent lines, that of
    [gpx_to_swiss_kroki.py] without. *)
Example lv95_summary_text :
  skipn 9 (map (Gpx2lv95.render_line (H0 := sample_runtime))
             (Gpx2lv95.format_profile
                (fst (Gpx2lv95.build_profile (H0 := sample_runtime)
                        [(46, 8, Some 1000); (46.001, 8, None)]%float false))))
  = [""; "Total distance: 111.32 m"; "Total ascent : 0.00 m";
     "Total descent: 1000.00 m"].
Proof. vm_compute. reflexivity. Qed.

Example kroki_summary_text :
  skipn 9 (map (Kroki.render_line (H0 := sample_runtime))
             (Kroki.report (H0 := sample_runtime)
                (kroki_swiss_points (H0 := sample_runtime) false
                   [(46, 8, Some 1000); (46.001, 8, None)]%float)))
  = [""; "Total Distance: 111.17 m"; ""].
Proof. vm_compute. reflexivity. Qed.

(** ** First entry and azimuth *)
Section Entries.

Context {F : Type} `{Number F} `{Runtime F}.

Lemma first_entry_zero (use_height_api : bool) (p : point F) :
  Gpx2lv95.pt_dist (first_entry use_height_api p) = zero
  /\ Gpx2lv95.pt_delta_ele (first_entry use_height_api p) = zero
  /\ Gpx2lv95.pt_azimuth (first_entry use_height_api p) = zero.
Proof.
  unfold first_entry. destruct p as [[lat lon] ele].
  destruct (LV95_transform lon lat). auto.
Qed.

(** C8.  For a route that is not empty the first entry of the profile has
    distance 0, elevation difference 0 and azimuth 0: in the profile that
    [build_profile] returns, in the table that [format_profile] makes of
    it, and in the table of [generate_kroki]. *)
Theorem first_entry_has_zeros (p : point F) (ps : list (point F))
  (lookup : bool) :
  (exists pt rest,
      fst (Gpx2lv95.build_profile (p :: ps) lookup) = pt :: rest
      /\ Gpx2lv95.pt_dist pt = zero
      /\ Gpx2lv95.pt_delta_ele pt = zero
      /\ Gpx2lv95.pt_azimuth pt = zero)
  /\ (exists e n ele rest,
      table_rows (Gpx2lv95.format_profile
                    (fst (Gpx2lv95.build_profile (p :: ps) lookup)))
      = Row 1 e n zero ele zero zero :: rest)
  /\ (exists e n ele rest,
      table_rows (Kroki.report (kroki_swiss_points lookup (p :: ps)))
      = Row 1 e n zero ele zero zero :: rest).
Proof.
  destruct (first_entry_zero lookup p) as (Hd & He & Ha).
  repeat split.
  - rewrite build_profile_entries. cbn [entries]. eauto 6.
  - rewrite format_profile_rows, build_profile_entries.
    cbn [entries enumerate map]. unfold profile_row at 1. cbn [fst snd].
    rewrite Hd, He, Ha. eauto.
  - rewrite report_rows. unfold kroki_swiss_points.
    rewrite resolve_points_value. cbn [app enumerate map fst snd].
    destruct (fst (Kroki.resolve_point lookup 0 p)) as [[e n] ele].
    unfold Kroki.row at 1. cbn [Nat.eqb]. eauto.
Qed.

Lemma entries_after_nth (use_height_api : bool) (l : list (point F))
  (prev p q : point F) (i : nat) :
  nth_error (prev :: l) i = Some p ->
  nth_error (prev :: l) (S i) = Some q ->
  nth_error (entries_after use_height_api prev l) i =
  Some (next_entry use_height_api p q).
Proof.
  revert prev i; induction l as [| x rest IH]; intros prev i Hp Hq.
  - destruct i; discriminate.
  - destruct i as [| i]; simpl in *.
    + injection Hp as <-. injection Hq as <-. reflexivity.
    + apply IH; assumption.
Qed.

(** C2 on [gpx2lv95.py].  From the second entry on, the azimuth of an
    entry is the forward azimuth that pyproj's [Geod.inv] returns for the
    segment from the previous point, as it is: nothing brings it into
    [0, 360). *)
Theorem lv95_azimuth_is_geod_inv (points : list (point F))
  (use_height_api : bool) (i : nat) (p q : point F) :
  nth_error points i = Some p ->
  nth_error points (S i) = Some q ->
  exists pt,
    nth_error (fst (Gpx2lv95.build_profile points use_height_api)) (S i)
    = Some pt
    /\ Gpx2lv95.pt_azimuth pt =
       fst (fst (GEOD_inv (snd (fst p)) (fst (fst p))
                          (snd (fst q)) (fst (fst q)))).
Proof.
  intros Hp Hq. rewrite build_profile_entries.
  destruct points as [| p0 rest]; [destruct i; discriminate |].
  exists (next_entry use_height_api p q). split.
  - cbn [entries nth_error]. apply entries_after_nth; assumption.
  - unfold next_entry. destruct q as [[lat lon] ele], p as [[plat plon] pele].
    destruct (LV95_transform lon lat).
    cbn [fst snd].
    destruct (GEOD_inv plon plat lon lat) as [[az baz] dist]. reflexivity.
Qed.

End Entries.

(** Two points on the equator, the second one degree west of the first:
    the azimuth in the profile is -90. *)
Lemma lv95_azimuth_is_geod_inv_witness :
  exists pt,
    nth_error (fst (Gpx2lv95.build_profile (H0 := sample_runtime)
                      [(0, 8, Some 400); (0, 7, Some 400)]%float false)) 1
    = Some pt
    /\ Gpx2lv95.pt_azimuth pt = (-90)%float
    /\ PrimFloat.ltb (Gpx2lv95.pt_azimuth pt) 0 = true.
Proof.
  destruct (lv95_azimuth_is_geod_inv (H0 := sample_runtime)
              [(0, 8, Some 400); (0, 7, Some 400)]%float false 0
              (p := (0, 8, Some 400)%float) (q := (0, 7, Some 400)%float)
              eq_refl eq_refl) as (pt & Hpt & Haz).
  exists pt. split; [exact Hpt |].
  rewrite Haz. split; vm_compute; reflexivity.
Defined.

(** ** Elevation resolution and its effects *)
Section Resolution.

Context {F : Type} `{Number F} `{Runtime F}.

Lemma step_events (points : list (point F)) (use_height_api : bool)
  (st : Gpx2lv95.loop_state F) (idx : nat) (p : point F) :
  snd (Gpx2lv95.step points use_height_api st idx p) =
  snd (lv95_resolve use_height_api p).
Proof.
  destruct p as [[lat lon] ele]. unfold Gpx2lv95.step, lv95_resolve.
  destruct (LV95_transform lon lat) as [e n].
  rewrite bind_events.
  destruct (0 <? idx)%nat.
  - destruct (nth (idx - 1) points (lat, lon, ele)) as [[plat plon] pele].
    destruct (GEOD_inv plon plat lon lat) as [[az baz] dist].
    destruct (Gpx2lv95.last_ele (Gpx2lv95.profile st));
      cbn; apply app_nil_r.
  - cbn. apply app_nil_r.
Qed.

Lemma build_loop_events (points : list (point F)) (use_height_api : bool)
  (l : list (nat * point F)) (st : Gpx2lv95.loop_state F) :
  snd (Gpx2lv95.build_loop points use_height_api l st) =
  flat_map (fun ip => snd (lv95_resolve use_height_api (snd ip))) l.
Proof.
  revert st; induction l as [| [idx p] rest IH]; intros st; simpl.
  - reflexivity.
  - rewrite bind_events, step_events, IH. reflexivity.
Qed.

(** The events of [build_profile] are those of the resolutions, point by
    point. *)
Lemma build_profile_events (points : list (point F)) (use_height_api : bool) :
  snd (Gpx2lv95.build_profile points use_height_api) =
  flat_map (fun p => snd (lv95_resolve use_height_api p)) points.
Proof.
  unfold Gpx2lv95.build_profile. rewrite bind_events, build_loop_events.
  cbn [ret snd]. rewrite app_nil_r.
  generalize 0%nat. induction points as [| p rest IH]; intros k; simpl;
    [reflexivity | rewrite IH; reflexivity].
Qed.






End Resolution.


(** ** Failed lookups *)
Section LookupFailure.

Context {F : Type} `{Number F} `{Runtime F}.

(** C5 on [gpx_to_swiss_kroki.py].  When the service answers with a 2xx
    status and a JSON object that has no [height], the lookup fails without
    an exception: [fetch_elevation_swisstopo] returns [None] after its
    request and prints no warning. *)
Theorem kroki_missing_height_is_silent (e n : F) (status : Z)
  (members : list (string * json F)) :
  height_api e n = Response status (Some (JObject members)) ->
  (200 <=? status)%Z && (status <? 300)%Z = true ->
  members_get "height" members = None ->
  Kroki.fetch_elevation_swisstopo e n = (None, [HttpGet e n])
  /\ filter is_lookup_warning (snd (Kroki.fetch_elevation_swisstopo e n)) = [].
Proof.
  intros Hreply Hstatus Hmissing.
  assert (Hfetch : Kroki.fetch_elevation_swisstopo e n = (None, [HttpGet e n])).
  { unfold Kroki.fetch_elevation_swisstopo, Kroki.try_fetch, Kroki.urlopen_json.
    rewrite Hreply, Hstatus. cbn [rbind json_contains].
    rewrite Hmissing. reflexivity. }
  rewrite Hfetch. split; reflexivity.
Qed.

(** In [gpx2lv95.py] every such failure ends in the handler: one request,
    one warning that carries the coordinates, and 0.0 returned. *)
Theorem lv95_lookup_failure_warns (e n : F) :
  lookup_fails (height_api e n) ->
  exists exc,
    Gpx2lv95.fetch_elevation None e n true =
    (zero, [HttpGet e n; Log WARNING (CouldNotFetch e n exc)]).
Proof.
  intros Hfail.
  assert (Hraise : exists exc, Gpx2lv95.try_fetch (height_api e n) = Raise exc).
  { unfold Gpx2lv95.try_fetch.
    destruct Hfail as [-> | (status & body & -> & Hwhy)]; [eauto |].
    destruct ((400 <=? status)%Z && (status <? 600)%Z) eqn:Hst; [eauto |].
    destruct Hwhy as [Hbad | [-> | (members & -> & Hmissing)]].
    - discriminate.
    - eauto.
    - cbn [subscript]. rewrite Hmissing. cbn [rbind]. eauto. }
  destruct Hraise as [exc Hraise]. exists exc.
  unfold Gpx2lv95.fetch_elevation. cbn [negb].
  rewrite Hraise. reflexivity.
Qed.

(** In [gpx_to_swiss_kroki.py] a lookup that raises ends in the handler:
    one request, one warning on stderr that carries the coordinates, and
    [None] returned. *)
Theorem kroki_lookup_exception_warns (e n : F) (exc : exn) :
  Kroki.try_fetch (height_api e n) = Raise exc ->
  Kroki.fetch_elevation_swisstopo e n =
  (None, [HttpGet e n; Stderr (CouldNotFetch e n exc)]).
Proof.
  intros Hraise. unfold Kroki.fetch_elevation_swisstopo.
  rewrite Hraise. reflexivity.
Qed.

End LookupFailure.

(** The service answers 200 and an object without [height]. *)
Lemma kroki_missing_height_is_silent_witness :
  Kroki.fetch_elevation_swisstopo
    (H0 := Sample.runtime Sample.files Sample.service_no_height)
    2600000%float 1200000%float
  = (None, [HttpGet 2600000%float 1200000%float]).
Proof.
  apply (kroki_missing_height_is_silent
           (H0 := Sample.runtime Sample.files Sample.service_no_height)
           2600000%float 1200000%float
           (status := 200%Z)
           (members := [("error", JString "out of bounds")]));
    reflexivity.
Defined.

(** The service answers 500. *)
Lemma lv95_lookup_failure_warns_witness :
  exists exc,
    Gpx2lv95.fetch_elevation
      (H0 := Sample.runtime Sample.files Sample.service_500)
      None 2600000%float 1200000%float true
    = (0%float,
       [HttpGet 2600000%float 1200000%float;
        Log WARNING (CouldNotFetch 2600000%float 1200000%float exc)]).
Proof.
  destruct (lv95_lookup_failure_warns
              (H0 := Sample.runtime Sample.files Sample.service_500)
              2600000%float 1200000%float) as [exc Hexc].
  - right. exists 500%Z, None. split; [reflexivity | left; reflexivity].
  - exists exc. exact Hexc.
Defined.

(** The service answers 500: [urlopen] raises [HTTPError]. *)
Lemma kroki_lookup_exception_warns_witness :
  Kroki.fetch_elevation_swisstopo
    (H0 := Sample.runtime Sample.files Sample.service_500)
    2600000%float 1200000%float
  = (None,
     [HttpGet 2600000%float 1200000%float;
      Stderr (CouldNotFetch 2600000%float 1200000%float (HTTPError 500))]).
Proof.
  apply (kroki_lookup_exception_warns
           (H0 := Sample.runtime Sample.files Sample.service_500)).
  reflexivity.
Defined.

(** ** Whole runs *)
Section Runs.

Context {F : Type} `{Number F} `{Runtime F}.

Lemma emitted_reports_app (t1 t2 : list (event F)) :
  emitted_reports (t1 ++ t2) = emitted_reports t1 ++ emitted_reports t2.
Proof. apply flat_map_app. Qed.

Lemma emitted_reports_flat_map {A} (g : A -> list (event F)) (l : list A) :
  (forall a, emitted_reports (g a) = []) ->
  emitted_reports (flat_map g l) = [].
Proof.
  intros Hg. induction l as [| a rest IH]; simpl; [reflexivity |].
  rewrite emitted_reports_app, Hg, IH. reflexivity.
Qed.

Lemma lv95_resolve_no_report (use_height_api : bool) (p : point F) :
  emitted_reports (snd (lv95_resolve use_height_api p)) = [].
Proof.
  destruct p as [[lat lon] ele]. unfold lv95_resolve.
  destruct (LV95_transform lon lat) as [e n].
  destruct ele as [v |]; [reflexivity |].
  destruct use_height_api; [| reflexivity]. cbn.
  destruct (Gpx2lv95.try_fetch (height_api e n)); reflexivity.
Qed.

Lemma kroki_resolve_no_report (fetch_elevation : bool) (i : nat) (p : point F) :
  emitted_reports (snd (Kroki.resolve_point fetch_elevation i p)) = [].
Proof.
  destruct p as [[lat lon] ele]. unfold Kroki.resolve_point.
  destruct (Kroki.wgs84_to_lv95 lat lon) as [e n].
  destruct ele as [v |]; [reflexivity |].
  destruct fetch_elevation; [| reflexivity]. cbn.
  unfold Kroki.fetch_elevation_swisstopo.
  destruct (Kroki.try_fetch (height_api e n)) as [[v |] | exc]; reflexivity.
Qed.

Lemma enumerate_length {A} (k : nat) (l : list A) :
  List.length (enumerate k l) = List.length l.
Proof.
  revert k; induction l as [| a rest IH]; intros k; simpl;
    [reflexivity | rewrite IH; reflexivity].
Qed.

Lemma entries_length (use_height_api : bool) (points : list (point F)) :
  List.length (entries use_height_api points) = List.length points.
Proof.
  destruct points as [| p rest]; [reflexivity |]. cbn [entries List.length].
  f_equal. revert p. induction rest as [| q rest IH]; intros p; simpl;
    [reflexivity | rewrite IH; reflexivity].
Qed.

(** [main] of [gpx_to_swiss_kroki.py] on a file with points, branch by
    branch: what has happened by the end of the first loop, by the start
    of the second, and how the run ends. *)
Lemma kroki_main_with_points (gpx_file : string) (output_file : option string)
  (fetch_elevation : bool) (p : point F) (ps : list (point F)) :
  Kroki.parse_gpx gpx_file = Ok (p :: ps) ->
  let points := p :: ps in
  let fetching :=
    existsb (fun q : point F => is_none (snd q)) points && fetch_elevation in
  let loop := Kroki.resolve_points fetch_elevation (enumerate 0 points) [] in
  let first :=
    (if fetching then [Stderr FetchingElevation] else []) ++ snd loop in
  let second := first ++ (if fetching then [Stderr Blank] else []) in
  let text := Kroki.report (fst loop) in
  Kroki.main gpx_file output_file fetch_elevation =
  if Kroki.conversion_raises points then
    (1%Z, first ++ [Stderr (ErrorMsg OverflowError)])
  else if Kroki.distance_raises (fst loop) then
    (1%Z, second ++ [Stderr (ErrorMsg OverflowError)])
  else
    match output_file with
    | Some path =>
        if String.eqb path "" then (0%Z, second ++ [PrintReport text])
        else
          match write_text path with
          | None =>
              (0%Z, second ++ [WriteReport path text; Stdout (KrokiSaved path)])
          | Some exc =>
              (1%Z, second ++ [Stderr match exc with
                                      | FileNotFoundError => FileNotFound gpx_file
                                      | _ => ErrorMsg exc
                                      end])
          end
    | None => (0%Z, second ++ [PrintReport text])
    end.
Proof.
  intros Hparse. cbv zeta.
  unfold Kroki.main, Kroki.generate_kroki. rewrite Hparse. cbn [is_empty].
  change (existsb (fun q : point F => is_none (snd q)) (p :: ps))
    with (existsb (fun q : F * F * option F => is_none (snd q)) (p :: ps)).
  match goal with |- context [when ?c _] => generalize c end.
  intros fetching.
  destruct (Kroki.resolve_points fetch_elevation (enumerate 0 (p :: ps)) [])
    as [swiss_points events].
  cbn [fst snd].
  destruct fetching;
    (destruct (Kroki.conversion_raises (p :: ps));
     [cbn; rewrite ?app_nil_r; reflexivity |]);
    cbn [bind when emit ret app];
    (destruct (Kroki.distance_raises swiss_points);
     [cbn; rewrite <- ?app_assoc, ?app_nil_r; reflexivity |]);
    (destruct output_file as [path |];
     [destruct (String.eqb path "");
      [| destruct (write_text path) as [[] |]] |]);
    cbn; rewrite <- ?app_assoc, ?app_nil_r; reflexivity.
Qed.

(** Up to the second loop no report is emitted. *)
Lemma kroki_loops_no_report (fetch_elevation fetching : bool)
  (points : list (point F)) :
  emitted_reports
    (((if fetching then [Stderr FetchingElevation] else [])
      ++ snd (Kroki.resolve_points fetch_elevation (enumerate 0 points) []))
     ++ (if fetching then [Stderr Blank] else [])) = [].
Proof.
  rewrite !emitted_reports_app, resolve_points_events.
  rewrite emitted_reports_flat_map by (intros; apply kroki_resolve_no_report).
  destruct fetching; reflexivity.
Qed.

Lemma kroki_overflows_false (fetch_elevation : bool) (points : list (point F)) :
  kroki_overflows fetch_elevation points = false ->
  Kroki.conversion_raises points = false
  /\ Kroki.distance_raises
       (fst (Kroki.resolve_points fetch_elevation (enumerate 0 points) []))
     = false.
Proof.
  unfold kroki_overflows, kroki_swiss_points. apply orb_false_iff.
Qed.

(** A run of [gpx2lv95.py] on a file with points, with the report printed
    or its output file writable, ends with status 0 and emits one report,
    which has a row for each point, whatever the height service answers. *)
Theorem lv95_run_completes (gpx_file : string) (output_file : option string)
  (use_height_api : bool) (p : point F) (ps : list (point F)) :
  Gpx2lv95.parse_gpx gpx_file = Ok (p :: ps) ->
  lv95_deliverable output_file = true ->
  let run := Gpx2lv95.main gpx_file output_file use_height_api in
  let text :=
    Gpx2lv95.format_profile
      (fst (Gpx2lv95.build_profile (p :: ps) use_height_api)) in
  fst run = 0%Z
  /\ emitted_reports (snd run) = [text]
  /\ List.length (table_rows text) = List.length (p :: ps).
Proof.
  intros Hparse Hout run text. subst run text.
  unfold Gpx2lv95.main. rewrite Hparse. cbn [is_empty].
  assert (Hwrite : forall path, output_file = Some path ->
                                write_text path = None).
  { intros path ->. cbn [lv95_deliverable] in Hout.
    destruct (write_text path); [discriminate | reflexivity]. }
  split; [| split].
  - rewrite bind_value.
    destruct output_file as [path |]; [| reflexivity].
    rewrite (Hwrite path eq_refl). reflexivity.
  - rewrite bind_events, emitted_reports_app, build_profile_events.
    rewrite emitted_reports_flat_map by (intros; apply lv95_resolve_no_report).
    destruct output_file as [path |]; [| reflexivity].
    rewrite (Hwrite path eq_refl). reflexivity.
  - rewrite format_profile_rows, length_map, enumerate_length.
    rewrite build_profile_entries. apply entries_length.
Qed.

(** A run of [gpx_to_swiss_kroki.py] on a file with points, none of whose
    powers overflows, with the report printed or its output file writable,
    ends with status 0 and emits one report, which has a row for each
    point, whatever the height service answers. *)
Theorem kroki_run_completes (gpx_file : string) (output_file : option string)
  (fetch_elevation : bool) (p : point F) (ps : list (point F)) :
  Kroki.parse_gpx gpx_file = Ok (p :: ps) ->
  kroki_overflows fetch_elevation (p :: ps) = false ->
  kroki_deliverable output_file = true ->
  let run := Kroki.main gpx_file output_file fetch_elevation in
  let text := Kroki.report (kroki_swiss_points fetch_elevation (p :: ps)) in
  fst run = 0%Z
  /\ emitted_reports (snd run) = [text]
  /\ List.length (table_rows text) = List.length (p :: ps).
Proof.
  intros Hparse Hover Hout run text. subst run text.
  rewrite (kroki_main_with_points _ _ _ Hparse). cbv zeta.
  destruct (kroki_overflows_false _ _ Hover) as [Hconv Hdist].
  rewrite Hconv, Hdist. unfold kroki_swiss_points.
  assert (Hwrite : forall path, output_file = Some path ->
                                String.eqb path "" = false ->
                                write_text path = None).
  { intros path -> Hpath. cbn [kroki_deliverable] in Hout.
    rewrite Hpath in Hout.
    destruct (write_text path); [discriminate | reflexivity]. }
  split; [| split].
  - destruct output_file as [path |]; [| reflexivity].
    destruct (String.eqb path "") eqn:Hpath; [reflexivity |].
    rewrite (Hwrite path eq_refl Hpath). reflexivity.
  - destruct output_file as [path |];
      [destruct (String.eqb path "") eqn:Hpath;
       [| rewrite (Hwrite path eq_refl Hpath)] |];
      cbn [snd]; rewrite emitted_reports_app, kroki_loops_no_report;
      reflexivity.
  - rewrite report_rows, length_map, enumerate_length.
    rewrite resolve_points_value, length_app, length_map, enumerate_length.
    reflexivity.
Qed.

(** C6 on [gpx_to_swiss_kroki.py].  When the document yields no point,
    [generate_kroki] prints a message on stderr and returns: no exception
    reaches [main], the process ends with status 0, and no report is
    emitted. *)
Theorem kroki_no_points_exits_zero (gpx_file : string)
  (output_file : option string) (fetch_elevation : bool) :
  Kroki.parse_gpx gpx_file = Ok [] ->
  Kroki.generate_kroki gpx_file output_file fetch_elevation
  = (Ok tt, [Stderr NoPointsFound])
  /\ Kroki.main gpx_file output_file fetch_elevation
     = (0%Z, [Stderr NoPointsFound]).
Proof.
  intros Hparse.
  assert (Hgen : Kroki.generate_kroki gpx_file output_file fetch_elevation
                 = (Ok tt, [Stderr NoPointsFound]))
    by (unfold Kroki.generate_kroki; rewrite Hparse; reflexivity).
  split; [exact Hgen |].
  unfold Kroki.main. rewrite Hgen. reflexivity.
Qed.

(** When the document yields no point, [main] of [gpx2lv95.py] raises
    [ValueError], logs it and ends with status 1; no report is emitted. *)
Theorem lv95_no_points_exits_one (gpx_file : string)
  (output_file : option string) (use_height_api : bool) :
  Gpx2lv95.parse_gpx gpx_file = Ok [] ->
  Gpx2lv95.main gpx_file output_file use_height_api
  = (1%Z, [Log ERROR (Unexpected ValueError)]).
Proof.
  intros Hparse. unfold Gpx2lv95.main. rewrite Hparse. reflexivity.
Qed.

End Runs.

(** [empty.gpx] has no point element. *)
Lemma kroki_no_points_exits_zero_witness :
  Kroki.main (H0 := sample_runtime) "empty.gpx" None true
  = (0%Z, [Stderr NoPointsFound]).
Proof.
  apply (kroki_no_points_exits_zero (H0 := sample_runtime) "empty.gpx" None true).
  vm_compute. reflexivity.
Defined.

(** The same file through the other script. *)
Lemma lv95_no_points_exits_one_witness :
  Gpx2lv95.main (H0 := sample_runtime) "empty.gpx" None true
  = (1%Z, [Log ERROR (Unexpected ValueError)]).
Proof.
  apply (lv95_no_points_exits_one (H0 := sample_runtime) "empty.gpx" None true).
  vm_compute. reflexivity.
Defined.

(** [bare.gpx] with the service answering 500 to the lookup of its second
    point. *)
Lemma lv95_run_completes_witness :
  fst (Gpx2lv95.main
         (H0 := Sample.runtime Sample.files Sample.service_500)
         "bare.gpx" None true) = 0%Z.
Proof.
  apply (lv95_run_completes
           (H0 := Sample.runtime Sample.files Sample.service_500)
           "bare.gpx" None true
           (p := (46, 8, Some 1000)%float) (ps := [(46.001, 8, None)]%float)).
  - vm_compute. reflexivity.
  - reflexivity.
Defined.

(** The same run through the other script. *)
Lemma kroki_run_completes_witness :
  fst (Kroki.main
         (H0 := Sample.runtime Sample.files Sample.service_500)
         "bare.gpx" None true) = 0%Z.
Proof.
  apply (kroki_run_completes
           (H0 := Sample.runtime Sample.files Sample.service_500)
           "bare.gpx" None true
           (p := (46, 8, Some 1000)%float) (ps := [(46.001, 8, None)]%float)).
  - vm_compute. reflexivity.
  - vm_compute. reflexivity.
  - reflexivity.
Defined.

(** ** Ascent minus descent *)

(** The sums of [generate_kroki] run over the pairs of neighbours. *)
Lemma segments_cons {F A} (f : A -> A -> F) (a b : A) (l : list A) (d : A) :
  map (fun i => f (nth (i - 1) (a :: b :: l) d) (nth i (a :: b :: l) d))
      (seq 1 (List.length (a :: b :: l) - 1)) =
  f a b ::
  map (fun i => f (nth (i - 1) (b :: l) d) (nth i (b :: l) d))
      (seq 1 (List.length (b :: l) - 1)).
Proof.
  cbn [List.length]. rewrite !Nat.sub_succ, !Nat.sub_0_r.
  cbn [seq map Nat.sub nth]. f_equal.
  rewrite <- seq_shift, map_map. apply map_ext_in.
  intros i Hi. apply in_seq in Hi.
  destruct i as [| j]; [lia |].
  cbn [Nat.sub nth]. rewrite Nat.sub_0_r. reflexivity.
Qed.

Lemma last_cons_default {A} (q p : A) (rest : list A) :
  last (q :: rest) p = last rest q.
Proof.
  revert q p; induction rest as [| x rest IH]; intros q p; [reflexivity |].
  change (last (q :: x :: rest) p) with (last (x :: rest) p).
  rewrite (IH x p), (IH x q). reflexivity.
Qed.

Section ExactArithmetic.

Local Open Scope Qc_scope.

Lemma Qc_ltb_lt (x y : Qc) : Qc_ltb x y = true <-> x < y.
Proof.
  unfold Qc_ltb. rewrite Qclt_alt. destruct (x ?= y); split; congruence.
Qed.

(** The positive part minus the negative part is the number itself. *)
Lemma Qc_max0_diff (d : Qc) : py_max 0 d - py_max 0 (- d) = d.
Proof.
  unfold py_max. cbn [ltb Qc_Number].
  destruct (Qc_ltb 0 d) eqn:Hd; destruct (Qc_ltb 0 (- d)) eqn:Hn.
  - apply Qc_ltb_lt in Hd, Hn. exfalso.
    unfold Qclt, Qcopp, Q2Qc in *. cbn [this] in *.
    rewrite !Qred_correct in *. lra.
  - ring.
  - ring.
  - assert (Hd' : ~ 0 < d) by (rewrite <- Qc_ltb_lt; congruence).
    assert (Hn' : ~ 0 < - d) by (rewrite <- Qc_ltb_lt; congruence).
    assert (d = 0) as ->; [| ring].
    apply Qc_is_canon.
    unfold Qclt, Qcopp, Q2Qc in *. cbn [this] in *.
    rewrite !Qred_correct in *. lra.
Qed.

Lemma Qc_sum_from (l : list Qc) (a : Qc) :
  fold_left Qcplus l a = a + fold_left Qcplus l 0.
Proof.
  revert a; induction l as [| x rest IH]; intros a; simpl.
  - ring.
  - rewrite IH, (IH (0 + x)). ring.
Qed.

Lemma Qc_sum_cons (x : Qc) (l : list Qc) : py_sum (x :: l) = x + py_sum l.
Proof.
  unfold py_sum. cbn [fold_left add zero Qc_Number].
  rewrite Qc_sum_from. ring.
Qed.

Lemma sum_over_segments_cons {A} (f : A -> A -> Qc) (a b : A) (l : list A)
  (d : A) :
  Kroki.sum_over_segments f (a :: b :: l) d
  = f a b + Kroki.sum_over_segments f (b :: l) d.
Proof.
  unfold Kroki.sum_over_segments. rewrite segments_cons. apply Qc_sum_cons.
Qed.

Lemma kroki_telescope (eles : list Qc) :
  Kroki.total_ascent eles - Kroki.total_descent eles
  = last eles 0 - hd 0 eles.
Proof.
  unfold Kroki.total_ascent, Kroki.total_descent.
  induction eles as [| a [| b l] IH].
  - cbn. ring.
  - cbn. ring.
  - rewrite !sum_over_segments_cons.
    cbn [zero sub Qc_Number] in *.
    replace (a - b) with (- (b - a)) by ring.
    pose proof (Qc_max0_diff (b - a)) as Hd.
    change (last (a :: b :: l) 0) with (last (b :: l) 0).
    cbn [hd] in *.
    transitivity ((py_max 0 (b - a) - py_max 0 (- (b - a)))
                  + (last (b :: l) 0 - b)); [| rewrite Hd; ring].
    rewrite <- IH. ring.
Qed.

End ExactArithmetic.

(** C9, as stated, fails on binary64: for the elevations 2000.8, 404.4
    and 1335.3 the ascent is 930.9 and the descent 1596.4, whose difference
    rounds to -665.5000000000001, while 1335.3 - 2000.8 is -665.5. *)
Lemma ascent_minus_descent_counterexample :
  Kroki.all_elevations
    (kroki_swiss_points (H0 := sample_runtime) false
       [(46, 8, Some 2000.8); (46.001, 8, Some 404.4);
        (46.002, 8, Some 1335.3)]%float)
  = Some [2000.8; 404.4; 1335.3]%float
  /\ PrimFloat.eqb
       (PrimFloat.sub (Kroki.total_ascent [2000.8; 404.4; 1335.3]%float)
                      (Kroki.total_descent [2000.8; 404.4; 1335.3]%float))
       (PrimFloat.sub 1335.3 2000.8) = false
  /\ PrimFloat.eqb
       (PrimFloat.sub
          (Gpx2lv95.total_ascent
             (fst (Gpx2lv95.build_profile (H0 := sample_runtime)
                     [(46, 8, Some 2000.8); (46.001, 8, Some 404.4);
                      (46.002, 8, Some 1335.3)]%float false)))
          (Gpx2lv95.total_descent
             (fst (Gpx2lv95.build_profile (H0 := sample_runtime)
                     [(46, 8, Some 2000.8); (46.001, 8, Some 404.4);
                      (46.002, 8, Some 1335.3)]%float false))))
       (PrimFloat.sub 1335.3 2000.8) = false.
Proof.
  repeat split; vm_compute; reflexivity.
Qed.


(** ** The command line of [gpx_to_swiss_kroki.py] *)
Section CommandLine.

Context {F : Type} `{Number F} `{Runtime F}.

Lemma parse_args_spec (args : list string) (output_file : option string)
  (fetch_elevation : bool) :
  KrokiCli.parse_args args output_file fetch_elevation =
  (match output_file with
   | Some path => Some path
   | None => find (fun arg => negb (is_no_fetch_flag arg)) args
   end,
   fetch_elevation && negb (existsb is_no_fetch_flag args)).
Proof.
  revert output_file fetch_elevation.
  induction args as [| arg rest IH]; intros output_file fetch_elevation.
  - cbn. rewrite andb_true_r. destruct output_file; reflexivity.
  - cbn [KrokiCli.parse_args find existsb]. fold (is_no_fetch_flag arg).
    destruct (is_no_fetch_flag arg); cbn [negb orb].
    + rewrite IH. cbn. rewrite andb_false_r. reflexivity.
    + destruct output_file as [path |]; cbn [is_none]; rewrite IH; reflexivity.
Qed.

(** With at least an input path on the command line, the script runs on
    that path; the lookup is off exactly when [--no-fetch-elevation] occurs
    somewhere after the path, and the output file is the first later
    argument that is not this flag, any further ones being ignored. *)
Theorem kroki_command_line (script gpx_file : string) (rest : list string) :
  KrokiCli.main (script :: gpx_file :: rest) =
  KrokiCli.Run
    (Kroki.main gpx_file
       (find (fun arg => negb (is_no_fetch_flag arg)) rest)
       (negb (existsb is_no_fetch_flag rest))).
Proof.
  unfold KrokiCli.main. rewrite parse_args_spec. reflexivity.
Qed.

End CommandLine.

(** ** The upload handler of [app.py] *)
Section Upload.

Context {F : Type} `{Number F} `{Runtime F}.

Lemma filter_flat_map_nil {A B} (f : B -> bool) (g : A -> list B) (l : list A) :
  (forall a, filter f (g a) = []) -> filter f (flat_map g l) = [].
Proof.
  intros Hg. induction l as [| a rest IH]; simpl; [reflexivity |].
  rewrite filter_app, Hg, IH. reflexivity.
Qed.

Lemma resolve_point_no_stdout (fetch_elevation : bool) (i : nat) (p : point F) :
  filter App.on_stdout (snd (Kroki.resolve_point fetch_elevation i p)) = [].
Proof.
  destruct p as [[lat lon] ele]. unfold Kroki.resolve_point.
  destruct (Kroki.wgs84_to_lv95 lat lon) as [e n].
  destruct ele as [v |]; [reflexivity |].
  destruct fetch_elevation; [| reflexivity]. cbn.
  unfold Kroki.fetch_elevation_swisstopo.
  destruct (Kroki.try_fetch (height_api e n)) as [[v |] | exc]; reflexivity.
Qed.

(** The script as [upload_file] starts it: one argument, the saved path. *)
Lemma run_script_on_path (filepath : string) :
  App.run_script ["gpx_to_swiss_kroki.py"; filepath] =
  let run := Kroki.main filepath None true in
  if (fst run =? 0)%Z then App.Captured (filter App.on_stdout (snd run))
  else App.Fehler (filter App.on_stderr (snd run)).
Proof.
  unfold App.run_script. cbn [KrokiCli.main KrokiCli.parse_args].
  destruct (Kroki.main filepath None true) as [status events]. reflexivity.
Qed.

(** The handler on a request that carries a named file. *)
Lemma upload_file_runs (files : list (string * string)) (filename : string) :
  assoc "file" files = Some filename ->
  String.eqb filename "" = false ->
  App.upload_file files =
  let filepath := App.path_join App.UPLOAD_FOLDER filename in
  (App.Page (App.run_script ["gpx_to_swiss_kroki.py"; filepath]),
   [App.Save filepath;
    App.Spawn ["python"; "gpx_to_swiss_kroki.py"; filepath]]).
Proof.
  intros Hfile Hname. unfold App.upload_file. rewrite Hfile, Hname. reflexivity.
Qed.

(** An uploaded file with points, none of whose powers overflows: the
    page shows the report and nothing else.  The script is always run with
    the lookup on and without output file, and what it writes on stderr
    (progress, warnings about failed lookups) is not shown. *)
Theorem upload_shows_report (files : list (string * string))
  (filename : string) (p : point F) (ps : list (point F)) :
  assoc "file" files = Some filename ->
  String.eqb filename "" = false ->
  Kroki.parse_gpx (App.path_join App.UPLOAD_FOLDER filename) = Ok (p :: ps) ->
  kroki_overflows true (p :: ps) = false ->
  fst (App.upload_file files) =
  App.Page (App.Captured
              [PrintReport (Kroki.report (kroki_swiss_points true (p :: ps)))]).
Proof.
  intros Hfile Hname Hparse Hover.
  rewrite (upload_file_runs _ Hfile Hname). cbn [fst]. f_equal.
  rewrite run_script_on_path. cbv zeta.
  rewrite (kroki_main_with_points _ _ _ Hparse). cbv zeta.
  destruct (kroki_overflows_false _ _ Hover) as [Hconv Hdist].
  rewrite Hconv, Hdist. cbn [fst snd Z.eqb]. f_equal.
  rewrite !filter_app, resolve_points_events.
  rewrite filter_flat_map_nil by (intros; apply resolve_point_no_stdout).
  unfold kroki_swiss_points.
  match goal with |- context [if ?c then [Stderr _] else _] => destruct c end;
    reflexivity.
Qed.

(** An uploaded file without any point: the script prints its error on
    stderr and ends with status 0, so the handler takes the run for a
    success and the page shows an empty output. *)
Theorem upload_without_points_shows_nothing (files : list (string * string))
  (filename : string) :
  assoc "file" files = Some filename ->
  String.eqb filename "" = false ->
  Kroki.parse_gpx (App.path_join App.UPLOAD_FOLDER filename) = Ok [] ->
  fst (App.upload_file files) = App.Page (App.Captured []).
Proof.
  intros Hfile Hname Hparse.
  rewrite (upload_file_runs _ Hfile Hname). cbn [fst]. f_equal.
  rewrite run_script_on_path. cbv zeta.
  unfold Kroki.main, Kroki.generate_kroki. rewrite Hparse. reflexivity.
Qed.

(** An uploaded file that the script cannot read (not XML, a coordinate
    that is not a number): the script ends with status 1 and the page
    shows ["Fehler im Skript: "] with the one error line of its stderr. *)
Theorem upload_shows_script_error (files : list (string * string))
  (filename : string) (exc : exn) :
  assoc "file" files = Some filename ->
  String.eqb filename "" = false ->
  Kroki.parse_gpx (App.path_join App.UPLOAD_FOLDER filename) = Raise exc ->
  fst (App.upload_file files) =
  App.Page (App.Fehler
              [Stderr match exc with
                      | FileNotFoundError =>
                          FileNotFound (App.path_join App.UPLOAD_FOLDER filename)
                      | _ => ErrorMsg exc
                      end]).
Proof.
  intros Hfile Hname Hparse.
  rewrite (upload_file_runs _ Hfile Hname). cbn [fst]. f_equal.
  rewrite run_script_on_path. cbv zeta.
  unfold Kroki.main, Kroki.generate_kroki. rewrite Hparse.
  destruct exc; reflexivity.
Qed.

(** The client's file name is used as it comes: an absolute name is saved
    at that very path, outside the upload folder, and the script is run on
    it. *)
Theorem upload_saves_absolute_name_as_is (files : list (string * string))
  (filename : string) :
  assoc "file" files = Some filename ->
  String.prefix "/" filename = true ->
  snd (App.upload_file files) =
  [App.Save filename;
   App.Spawn ["python"; "gpx_to_swiss_kroki.py"; filename]].
Proof.
  intros Hfile Habs.
  assert (Hname : String.eqb filename "" = false)
    by (destruct filename; [discriminate | reflexivity]).
  rewrite (upload_file_runs _ Hfile Hname). cbn [snd].
  unfold App.path_join. rewrite Habs. reflexivity.
Qed.

End Upload.

(** [track.gpx] uploaded, the height service down: the page shows the
    report. *)
Lemma upload_shows_report_witness :
  exists report,
    fst (App.upload_file (H0 := web_runtime) [("file", "track.gpx")])
    = App.Page (App.Captured [PrintReport report])
    /\ List.length (table_rows report) = 2%nat.
Proof.
  eexists. split.
  - apply (upload_shows_report (H0 := web_runtime) [("file", "track.gpx")]
             (filename := "track.gpx")
             (p := (46, 8, Some 1000)%float)
             (ps := [(46.001, 8, Some 1050)]%float));
      vm_compute; reflexivity.
  - vm_compute. reflexivity.
Defined.

(** [empty.gpx] uploaded. *)
Lemma upload_without_points_shows_nothing_witness :
  fst (App.upload_file (H0 := web_runtime) [("file", "empty.gpx")])
  = App.Page (App.Captured []).
Proof.
  apply (upload_without_points_shows_nothing (H0 := web_runtime)
           [("file", "empty.gpx")] (filename := "empty.gpx"));
    vm_compute; reflexivity.
Defined.

(** [garbled.gpx] uploaded: [float("north")] raises [ValueError]. *)
Lemma upload_shows_script_error_witness :
  fst (App.upload_file (H0 := web_runtime) [("file", "garbled.gpx")])
  = App.Page (App.Fehler [Stderr (ErrorMsg ValueError)]).
Proof.
  apply (upload_shows_script_error (H0 := web_runtime)
           [("file", "garbled.gpx")] (filename := "garbled.gpx")
           (exc := ValueError));
    vm_compute; reflexivity.
Defined.

(** A client that names its file [/tmp/track.gpx]. *)
Lemma upload_saves_absolute_name_as_is_witness :
  snd (App.upload_file (H0 := web_runtime) [("file", "/tmp/track.gpx")])
  = [App.Save "/tmp/track.gpx";
     App.Spawn ["python"; "gpx_to_swiss_kroki.py"; "/tmp/track.gpx"]].
Proof.
  apply (upload_saves_absolute_name_as_is (H0 := web_runtime)
           [("file", "/tmp/track.gpx")] (filename := "/tmp/track.gpx"));
    reflexivity.
Defined.


(** ** The tables, row by row *)
Section Rows.

Context {F : Type} `{Number F} `{Runtime F}.

Lemma rows_after_spec (l done : list (Kroki.swiss_point F))
  (prev : Kroki.swiss_point F) :
  map (fun ip => Kroki.row (done ++ prev :: l) (fst ip) (snd ip))
      (enumerate (List.length done + 2) l)
  = rows_after (List.length done + 2) prev l.
Proof.
  revert done prev; induction l as [| p rest IH]; intros done prev;
    [reflexivity |].
  cbn [enumerate map rows_after fst snd]. f_equal.
  - unfold Kroki.row, next_row. destruct p as [[e n] ele].
    replace (List.length done + 2 =? 1)%nat with false
      by (symmetry; apply Nat.eqb_neq; lia).
    replace (List.length done + 2 - 2)%nat with (List.length done) by lia.
    rewrite nth_middle. reflexivity.
  - replace (done ++ prev :: p :: rest) with ((done ++ [prev]) ++ p :: rest)
      by (rewrite <- app_assoc; reflexivity).
    replace (S (List.length done + 2)) with (List.length (done ++ [prev]) + 2)%nat
      by (rewrite length_app; simpl; lia).
    apply IH.
Qed.

(** The second loop prints the rows. *)
Lemma report_rows_spec (sps : list (Kroki.swiss_point F)) :
  table_rows (Kroki.report sps) = rows sps.
Proof.
  rewrite report_rows. destruct sps as [| p rest]; [reflexivity |].
  cbn [enumerate map rows fst snd].
  pose proof (rows_after_spec rest [] p) as Hrest.
  cbn [app List.length Nat.add] in Hrest. rewrite <- Hrest.
  reflexivity.
Qed.

Lemma segments_pairwise {A} (f : A -> A -> F) (l : list A) (d : A) :
  map (fun i => f (nth (i - 1) l d) (nth i l d)) (seq 1 (List.length l - 1))
  = pairwise f l.
Proof.
  induction l as [| a [| b rest] IH]; [reflexivity | reflexivity |].
  rewrite segments_cons, IH. reflexivity.
Qed.

Lemma sum_over_segments_pairwise {A} (f : A -> A -> F) (l : list A) (d : A) :
  Kroki.sum_over_segments f l d = py_sum (pairwise f l).
Proof.
  unfold Kroki.sum_over_segments. rewrite segments_pairwise. reflexivity.
Qed.

Lemma rows_after_dist (i : nat) (prev : Kroki.swiss_point F)
  (l : list (Kroki.swiss_point F)) :
  map row_dist (rows_after i prev l) =
  pairwise (fun p q => Kroki.calculate_distance (fst (fst p)) (snd (fst p))
                                                (fst (fst q)) (snd (fst q)))
           (prev :: l).
Proof.
  revert i prev; induction l as [| p rest IH]; intros i prev; [reflexivity |].
  cbn [rows_after map pairwise]. rewrite IH. f_equal.
  unfold next_row. destruct p as [[e n] ele], prev as [[pe pn] pele].
  destruct ele, pele; reflexivity.
Qed.

(** The total distance of [generate_kroki] is the sum of the distances
    that the table shows from the second row on, added in the same order;
    that of [format_profile] is the sum over all the rows, the first one
    included. *)
Theorem total_distance_is_sum_of_rows :
  (forall sps : list (Kroki.swiss_point F),
      Kroki.total_distance sps
      = py_sum (map row_dist (tl (table_rows (Kroki.report sps)))))
  /\ (forall profile : list (Gpx2lv95.entry F),
      Gpx2lv95.total_distance profile
      = py_sum (map row_dist (table_rows (Gpx2lv95.format_profile profile)))).
Proof.
  split.
  - intros sps. rewrite report_rows_spec.
    unfold Kroki.total_distance. rewrite sum_over_segments_pairwise.
    destruct sps as [| p rest]; [reflexivity |].
    cbn [rows tl]. rewrite rows_after_dist. reflexivity.
  - intros profile. rewrite format_profile_rows, map_map.
    unfold Gpx2lv95.total_distance. f_equal.
    generalize 1%nat. induction profile as [| pt rest IH]; intros k;
      [reflexivity |].
    cbn [enumerate map]. rewrite <- IH. reflexivity.
Qed.

Lemma rows_after_nth (l : list (Kroki.swiss_point F)) (k i : nat)
  (prev p q : Kroki.swiss_point F) :
  nth_error (prev :: l) i = Some p ->
  nth_error (prev :: l) (S i) = Some q ->
  nth_error (rows_after k prev l) i = Some (next_row (k + i) p q).
Proof.
  revert k i prev; induction l as [| x rest IH]; intros k i prev Hp Hq.
  - destruct i; discriminate.
  - destruct i as [| i]; cbn [nth_error rows_after] in *.
    + injection Hp as <-. injection Hq as <-. rewrite Nat.add_0_r. reflexivity.
    + rewrite (IH (S k) i x Hp Hq), Nat.add_succ_r. reflexivity.
Qed.

(** From the second row on, a row of [generate_kroki] is made from its
    point and the one before: distance and azimuth between the two, and an
    elevation only when both have one.  A point whose own elevation is
    known is printed with "N/A" when the elevation of the point before it
    is not. *)
Theorem kroki_row_from_previous (sps : list (Kroki.swiss_point F)) (i : nat)
  (prev_e prev_n e n : F) (prev_ele ele : option F) :
  nth_error sps i = Some (prev_e, prev_n, prev_ele) ->
  nth_error sps (S i) = Some (e, n, ele) ->
  nth_error (table_rows (Kroki.report sps)) (S i) =
  Some (Row (S (S i)) e n
            (Kroki.calculate_distance prev_e prev_n e n)
            (match prev_ele with Some _ => ele | None => None end)
            (match ele, prev_ele with
             | Some v, Some prev_v => sub v prev_v
             | _, _ => zero
             end)
            (Kroki.calculate_azimuth prev_e prev_n e n)).
Proof.
  intros Hprev Hp. rewrite report_rows_spec.
  destruct sps as [| p0 rest]; [destruct i; discriminate |].
  cbn [rows nth_error].
  rewrite (rows_after_nth rest 2%nat i p0 Hprev Hp).
  unfold next_row. destruct ele, prev_ele; reflexivity.
Qed.

Lemma resolve_point_coords (fetch_elevation : bool) (i : nat) (lat lon : F)
  (ele : option F) :
  fst (fst (Kroki.resolve_point fetch_elevation i (lat, lon, ele)))
  = Kroki.wgs84_to_lv95 lat lon.
Proof.
  unfold Kroki.resolve_point.
  destruct (Kroki.wgs84_to_lv95 lat lon) as [e n].
  rewrite bind_value. reflexivity.
Qed.

Lemma rows_nth (sps : list (Kroki.swiss_point F)) (i : nat) (e n : F)
  (ele : option F) :
  nth_error sps i = Some (e, n, ele) ->
  exists dist elev delta_ele azimuth,
    nth_error (rows sps) i = Some (Row (S i) e n dist elev delta_ele azimuth).
Proof.
  intros Hp. destruct sps as [| p0 rest]; [destruct i; discriminate |].
  destruct i as [| i].
  - injection Hp as ->. cbn. eauto.
  - cbn [rows nth_error].
    assert (Hprev : exists prev, nth_error (p0 :: rest) i = Some prev).
    { destruct (nth_error (p0 :: rest) i) eqn:E; [eauto |].
      apply nth_error_None in E. cbn [nth_error] in Hp.
      assert (nth_error rest i <> None) by congruence.
      apply nth_error_Some in H1. cbn [List.length] in E. lia. }
    destruct Hprev as [[[pe pn] pele] Hprev].
    rewrite (rows_after_nth rest 2%nat i p0 Hprev Hp).
    unfold next_row. destruct ele, pele; eauto.
Qed.

Lemma enumerate_nth_error {A} (l : list A) (k i : nat) (a : A) :
  nth_error l i = Some a -> nth_error (enumerate k l) i = Some ((k + i)%nat, a).
Proof.
  revert k i; induction l as [| x rest IH]; intros k i Ha.
  - destruct i; discriminate.
  - destruct i as [| i]; cbn [nth_error enumerate] in *.
    + injection Ha as ->. rewrite Nat.add_0_r. reflexivity.
    + rewrite (IH (S k) i Ha), Nat.add_succ_r. reflexivity.
Qed.

Lemma entries_nth (use_height_api : bool) (points : list (point F)) (i : nat)
  (p : point F) :
  nth_error points i = Some p ->
  exists pt,
    nth_error (entries use_height_api points) i = Some pt
    /\ (Gpx2lv95.pt_e pt, Gpx2lv95.pt_n pt)
       = LV95_transform (snd (fst p)) (fst (fst p))
    /\ Gpx2lv95.pt_ele pt = Some (fst (lv95_resolve use_height_api p)).
Proof.
  intros Hp. destruct points as [| p0 rest]; [destruct i; discriminate |].
  destruct i as [| i].
  - injection Hp as ->. exists (first_entry use_height_api p).
    split; [reflexivity |].
    unfold first_entry. destruct p as [[lat lon] ele]. cbn [fst snd].
    destruct (LV95_transform lon lat). auto.
  - cbn [nth_error] in Hp.
    assert (Hprev : exists prev, nth_error (p0 :: rest) i = Some prev).
    { destruct (nth_error (p0 :: rest) i) eqn:E; [eauto |].
      apply nth_error_None in E.
      assert (nth_error rest i <> None) by congruence.
      apply nth_error_Some in H1. cbn [List.length] in E. lia. }
    destruct Hprev as [prev Hprev].
    exists (next_entry use_height_api prev p). split.
    + cbn [entries nth_error]. apply entries_after_nth; assumption.
    + unfold next_entry.
      destruct p as [[lat lon] ele], prev as [[plat plon] pele]. cbn [fst snd].
      destruct (LV95_transform lon lat).
      destruct (GEOD_inv plon plat lon lat) as [[az baz] dist]. auto.
Qed.

(** In both tables the rows follow the points: the row at position [i]
    carries the number [i + 1] and the planar coordinates of the point at
    position [i], through [wgs84_to_lv95] in one script and through pyproj
    in the other. *)
Theorem rows_follow_points (points : list (point F)) (lookup : bool) (i : nat)
  (lat lon : F) (ele : option F) :
  nth_error points i = Some (lat, lon, ele) ->
  (exists dist elev delta_ele azimuth,
      nth_error (table_rows (Kroki.report (kroki_swiss_points lookup points))) i
      = Some (Row (S i) (fst (Kroki.wgs84_to_lv95 lat lon))
                  (snd (Kroki.wgs84_to_lv95 lat lon))
                  dist elev delta_ele azimuth))
  /\ (exists dist elev delta_ele azimuth,
      nth_error (table_rows (Gpx2lv95.format_profile
                               (fst (Gpx2lv95.build_profile points lookup)))) i
      = Some (Row (S i) (fst (LV95_transform lon lat))
                  (snd (LV95_transform lon lat))
                  dist elev delta_ele azimuth)).
Proof.
  intros Hp. split.
  - rewrite report_rows_spec. unfold kroki_swiss_points.
    rewrite resolve_points_value. cbn [app].
    pose proof (enumerate_nth_error points 0%nat i Hp) as Hen.
    pose proof (map_nth_error
                  (fun ip => fst (Kroki.resolve_point lookup (fst ip) (snd ip)))
                  i (enumerate 0 points) Hen) as Hsp.
    cbn [fst snd] in Hsp.
    destruct (fst (Kroki.resolve_point lookup (0 + i) (lat, lon, ele)))
      as [[e n] ele'] eqn:Hres.
    pose proof (resolve_point_coords lookup (0 + i) lat lon ele) as Hc.
    rewrite Hres in Hc. cbn [fst] in Hc. rewrite <- Hc. cbn [fst snd].
    eapply rows_nth. exact Hsp.
  - rewrite format_profile_rows, build_profile_entries.
    destruct (entries_nth lookup points i Hp) as (pt & Hpt & Hc & _).
    cbn [fst snd] in Hc.
    pose proof (enumerate_nth_error (entries lookup points) 1%nat i Hpt) as Hen.
    rewrite (map_nth_error profile_row i _ Hen).
    unfold profile_row. cbn [fst snd]. rewrite <- Hc. cbn [fst snd]. eauto.
Qed.

(** From the second entry on, an entry of [build_profile] is made from its
    point and the one before: the distance is the one pyproj's [Geod.inv]
    returns for the segment, and the elevation difference is taken between
    the two resolved elevations, a 0.0 that stands for an unknown one
    included. *)
Theorem lv95_entry_from_previous (points : list (point F))
  (use_height_api : bool) (i : nat) (p q : point F) :
  nth_error points i = Some p ->
  nth_error points (S i) = Some q ->
  exists pt,
    nth_error (fst (Gpx2lv95.build_profile points use_height_api)) (S i)
    = Some pt
    /\ Gpx2lv95.pt_dist pt =
       snd (GEOD_inv (snd (fst p)) (fst (fst p)) (snd (fst q)) (fst (fst q)))
    /\ Gpx2lv95.pt_ele pt = Some (fst (lv95_resolve use_height_api q))
    /\ Gpx2lv95.pt_delta_ele pt =
       sub (fst (lv95_resolve use_height_api q))
           (fst (lv95_resolve use_height_api p)).
Proof.
  intros Hp Hq. rewrite build_profile_entries.
  destruct points as [| p0 rest]; [destruct i; discriminate |].
  exists (next_entry use_height_api p q). split.
  - cbn [entries nth_error]. apply entries_after_nth; assumption.
  - unfold next_entry. destruct q as [[lat lon] ele], p as [[plat plon] pele].
    cbn [fst snd].
    destruct (LV95_transform lon lat).
    destruct (GEOD_inv plon plat lon lat) as [[az baz] dist]. auto.
Qed.

(** No row of the table of [gpx2lv95.py] is without elevation: where
    [gpx_to_swiss_kroki.py] prints "N/A", this script prints a number. *)
Theorem lv95_rows_have_elevation (points : list (point F))
  (use_height_api : bool) :
  forallb (fun row => negb (is_none (row_elev row)))
          (table_rows (Gpx2lv95.format_profile
                         (fst (Gpx2lv95.build_profile points use_height_api))))
  = true.
Proof.
  rewrite format_profile_rows.
  pose proof (build_profile_resolved points use_height_api) as Hall.
  revert Hall. generalize (fst (Gpx2lv95.build_profile points use_height_api)).
  intros profile. generalize 1%nat.
  induction profile as [| pt rest IH]; intros k Hall; [reflexivity |].
  cbn [forallb enumerate map] in *.
  apply andb_true_iff in Hall as [Hpt Hrest].
  rewrite (IH (S k) Hrest), andb_true_r. exact Hpt.
Qed.

End Rows.

(** ** Pauses between the lookups *)
Section Pauses.

Context {F : Type} `{Number F} `{Runtime F}.





End Pauses.

(** ** A lookup that succeeds *)
Section LookupSucceeds.

Context {F : Type} `{Number F} `{Runtime F}.


End LookupSucceeds.

(** ** Input that cannot be read *)
Section BadNumber.

Context {F : Type} `{Number F} `{Runtime F}.

Lemma py_float_raises (s : string) (exc : exn) :
  py_float (Some s) = Raise exc -> exc = ValueError.
Proof.
  unfold py_float. destruct (float_of_str s); [discriminate |].
  intros [= <-]. reflexivity.
Qed.

Lemma read_ele_raises (elem : Element) (exc : exn) :
  read_ele elem = Raise exc -> exc = ValueError.
Proof.
  unfold read_ele. destruct (find_child elem (gpx "ele")) as [el |];
    [| discriminate].
  destruct (text el) as [s |]; [| discriminate].
  destruct (String.eqb s ""); [discriminate |].
  destruct (py_float (Some s)) as [v | e] eqn:E; [discriminate |].
  intros [= <-]. apply (py_float_raises _ E).
Qed.

(** On an element with both coordinates, [_extract] can only raise
    [ValueError]. *)
Lemma extract_with_coords_raises (elem : Element) (exc : exn) :
  has_coords elem = true ->
  Gpx2lv95._extract elem = Raise exc -> exc = ValueError.
Proof.
  unfold has_coords, Gpx2lv95._extract.
  destruct (get elem "lat") as [lat_str |]; [| discriminate].
  destruct (get elem "lon") as [lon_str |]; [| discriminate].
  intros _.
  destruct (py_float (Some lat_str)) as [lat | e] eqn:Hlat;
    [| intros [= <-]; apply (py_float_raises _ Hlat)].
  destruct (py_float (Some lon_str)) as [lon | e] eqn:Hlon;
    [| intros [= <-]; apply (py_float_raises _ Hlon)].
  destruct (read_ele elem) as [ele | e] eqn:Hele;
    [discriminate | intros [= <-]; apply (read_ele_raises _ Hele)].
Qed.

(** A comprehension that raises on one item raises, and with the one
    exception when it is the only one the items can raise. *)
Lemma comprehension_raises_only {A B} (f : A -> result B) (l : list A) (a : A)
  (exc exc0 : exn) :
  In a l -> f a = Raise exc ->
  (forall b e, In b l -> f b = Raise e -> e = exc0) ->
  comprehension f l = Raise exc0.
Proof.
  intros Hin Hexc Honly.
  induction l as [| b rest IH]; [contradiction |].
  cbn [comprehension].
  destruct (f b) as [v | e] eqn:Hb.
  - destruct Hin as [-> | Hin]; [congruence |].
    cbn [rbind]. rewrite IH; [reflexivity | assumption |].
    intros b' e' Hb' He'. apply (Honly b' e'); [right |]; assumption.
  - cbn [rbind]. f_equal. apply (Honly b e); [left; reflexivity | exact Hb].
Qed.

(** One number that cannot be read loses the whole run.  When a track
    point with both coordinates has a latitude, a longitude or an elevation
    that [float] rejects, neither script shows the points it could read:
    both end with status 1 after a single error line, without a report
    and without a request to the height service. *)
Theorem bad_number_aborts_run (gpx_file : string) (root elem : Element)
  (output_file : option string) (lookup : bool) (exc : exn) :
  ET_parse gpx_file = Ok root ->
  In elem (trkpts root) ->
  has_coords elem = true ->
  Gpx2lv95._extract elem = Raise exc ->
  Kroki.main gpx_file output_file lookup
  = (1%Z, [Stderr (ErrorMsg ValueError)])
  /\ exists exc',
      Gpx2lv95.main gpx_file output_file lookup
      = (1%Z, [Log ERROR (Unexpected exc')]).
Proof.
  intros Hroot Hin Hc Hexc. split.
  - assert (Hparse : Kroki.parse_gpx gpx_file = Raise ValueError).
    { unfold Kroki.parse_gpx. rewrite Hroot. cbn [rbind].
      unfold Kroki.points_of_root. fold (trkpts root).
      rewrite collect_nil.
      rewrite (comprehension_raises_only Gpx2lv95._extract
                 (filter has_coords (trkpts root)) elem (exc0 := ValueError)
                 (exc := exc)).
      - reflexivity.
      - apply filter_In. split; assumption.
      - exact Hexc.
      - intros b e Hb He. apply filter_In in Hb as [_ Hb].
        apply (extract_with_coords_raises b Hb He). }
    unfold Kroki.main, Kroki.generate_kroki. rewrite Hparse. reflexivity.
  - assert (Hparse : exists exc',
               Gpx2lv95.parse_gpx gpx_file = Raise exc'
               /\ (exc' = TypeError \/ exc' = ValueError)).
    { unfold Gpx2lv95.parse_gpx. rewrite Hroot. cbn [rbind].
      unfold Gpx2lv95.points_of_root. fold (trkpts root) (rtepts root) (wpts root).
      destruct (trkpts root) as [| t ts] eqn:Etrk; [contradiction |].
      cbn [list_or]. clear Etrk. revert Hin.
      generalize (t :: ts). intros l Hin.
      induction l as [| b rest IH]; [contradiction |].
      cbn [comprehension].
      destruct (Gpx2lv95._extract b) as [v | e] eqn:Hb.
      - destruct Hin as [-> | Hin]; [congruence |].
        destruct (IH Hin) as (exc' & Hrest & Hkind).
        exists exc'. cbn [rbind]. rewrite Hrest. split; [reflexivity | exact Hkind].
      - exists e. split; [reflexivity |].
        destruct (has_coords b) eqn:Hcb.
        + right. apply (extract_with_coords_raises b Hcb Hb).
        + destruct (extract_without_coords b Hcb) as (e' & He' & Hkind).
          congruence. }
    destruct Hparse as (exc' & Hparse & Hkind).
    exists exc'. unfold Gpx2lv95.main. rewrite Hparse.
    destruct Hkind as [-> | ->]; reflexivity.
Qed.

End BadNumber.

(** ** Neighbours in a reversed list *)

Lemma pairwise_snoc {A B} (f : A -> A -> B) (l : list A) (x d : A) :
  l <> [] -> pairwise f (l ++ [x]) = pairwise f l ++ [f (last l d) x].
Proof.
  induction l as [| a [| b rest] IH]; intros Hl; [contradiction | reflexivity |].
  change (pairwise f ((a :: b :: rest) ++ [x]))
    with (f a b :: pairwise f ((b :: rest) ++ [x])).
  rewrite IH by discriminate. reflexivity.
Qed.

Lemma pairwise_rev {A B} (f : A -> A -> B) (l : list A) :
  pairwise f (rev l) = rev (pairwise (fun a b => f b a) l).
Proof.
  induction l as [| a [| b rest] IH]; [reflexivity | reflexivity |].
  change (rev (a :: b :: rest)) with (rev (b :: rest) ++ [a]).
  rewrite (@pairwise_snoc _ _ f (rev (b :: rest)) a a).
  - rewrite IH. cbn [rev]. rewrite last_last. reflexivity.
  - cbn [rev]. destruct (rev rest); discriminate.
Qed.

Lemma all_elevations_app {F} (a b : list (Kroki.swiss_point F)) :
  Kroki.all_elevations (a ++ b) =
  match Kroki.all_elevations a, Kroki.all_elevations b with
  | Some x, Some y => Some (x ++ y)
  | _, _ => None
  end.
Proof.
  induction a as [| [[e n] [v |]] rest IH]; cbn [app Kroki.all_elevations].
  - destruct (Kroki.all_elevations b); reflexivity.
  - rewrite IH. destruct (Kroki.all_elevations rest), (Kroki.all_elevations b);
      reflexivity.
  - reflexivity.
Qed.

Lemma all_elevations_rev {F} (sps : list (Kroki.swiss_point F)) (eles : list F) :
  Kroki.all_elevations sps = Some eles ->
  Kroki.all_elevations (rev sps) = Some (rev eles).
Proof.
  revert eles; induction sps as [| [[e n] [v |]] rest IH]; intros eles;
    cbn [Kroki.all_elevations rev].
  - intros [= <-]. reflexivity.
  - destruct (Kroki.all_elevations rest) as [eles' |]; [| discriminate].
    intros [= <-]. rewrite all_elevations_app, (IH eles' eq_refl).
    reflexivity.
  - discriminate.
Qed.

Section ExactSums.

Local Open Scope Qc_scope.

Lemma Qc_sum_snoc (l : list Qc) (x : Qc) : py_sum (l ++ [x]) = py_sum l + x.
Proof.
  unfold py_sum. rewrite fold_left_app. reflexivity.
Qed.

Lemma Qc_sum_rev (l : list Qc) : py_sum (rev l) = py_sum l.
Proof.
  induction l as [| x rest IH]; [reflexivity |].
  cbn [rev]. rewrite Qc_sum_snoc, Qc_sum_cons, IH. ring.
Qed.

Lemma kroki_ascent_rev (eles : list Qc) :
  Kroki.total_ascent (rev eles) = Kroki.total_descent eles.
Proof.
  unfold Kroki.total_ascent, Kroki.total_descent.
  rewrite !sum_over_segments_pairwise, pairwise_rev. apply Qc_sum_rev.
Qed.

Lemma kroki_descent_rev (eles : list Qc) :
  Kroki.total_descent (rev eles) = Kroki.total_ascent eles.
Proof.
  unfold Kroki.total_ascent, Kroki.total_descent.
  rewrite !sum_over_segments_pairwise, pairwise_rev. apply Qc_sum_rev.
Qed.

End ExactSums.

(** Two Swiss points 100 m apart, the first without elevation: the second
    row shows no elevation either, although its point has one. *)
Lemma kroki_row_from_previous_witness :
  nth_error
    (table_rows
       (Kroki.report (H0 := sample_runtime)
          [(2600000, 1200000, None); (2600000, 1200100, Some 1050)]%float))
    1
  = Some (Row 2 2600000 1200100 100 None 0 0)%float.
Proof.
  exact (kroki_row_from_previous (H0 := sample_runtime)
           [(2600000, 1200000, None); (2600000, 1200100, Some 1050)]%float 0
           (prev_e := 2600000%float) (prev_n := 1200000%float)
           (e := 2600000%float) (n := 1200100%float)
           (prev_ele := None) (ele := Some 1050%float)
           eq_refl eq_refl).
Defined.

(** The second point of the track of [track.gpx] is on the second row of
    both tables. *)
Lemma rows_follow_points_witness :
  (exists dist elev delta_ele azimuth,
      nth_error
        (table_rows
           (Kroki.report (H0 := sample_runtime)
              (kroki_swiss_points (H0 := sample_runtime) false
                 [(46, 8, Some 1000); (46.001, 8, Some 1050)]%float))) 1
      = Some (Row 2
                (fst (Kroki.wgs84_to_lv95 (H0 := sample_runtime)
                        46.001%float 8%float))
                (snd (Kroki.wgs84_to_lv95 (H0 := sample_runtime)
                        46.001%float 8%float))
                dist elev delta_ele azimuth))
  /\ (exists dist elev delta_ele azimuth,
      nth_error
        (table_rows
           (Gpx2lv95.format_profile
              (fst (Gpx2lv95.build_profile (H0 := sample_runtime)
                      [(46, 8, Some 1000); (46.001, 8, Some 1050)]%float
                      false)))) 1
      = Some (Row 2 (fst (Sample.transform 8 46.001))
                (snd (Sample.transform 8 46.001))
                dist elev delta_ele azimuth)).
Proof.
  apply (rows_follow_points (H0 := sample_runtime)
           [(46, 8, Some 1000); (46.001, 8, Some 1050)]%float false 1
           (lat := 46.001%float) (lon := 8%float) (ele := Some 1050%float)).
  reflexivity.
Defined.

(** Two points on the equator, one degree apart, the second without
    elevation and the lookup off: 111319.49 m between them, and a descent
    of 400 m to the 0.0 that stands for the unknown elevation. *)
Lemma lv95_entry_from_previous_witness :
  exists pt,
    nth_error
      (fst (Gpx2lv95.build_profile (H0 := sample_runtime)
              [(0, 8, Some 400); (0, 7, None)]%float false)) 1
    = Some pt
    /\ Gpx2lv95.pt_dist pt = 111319.49079327357%float
    /\ Gpx2lv95.pt_ele pt = Some 0%float
    /\ Gpx2lv95.pt_delta_ele pt = (-400)%float.
Proof.
  exact (lv95_entry_from_previous (H0 := sample_runtime)
           [(0, 8, Some 400); (0, 7, None)]%float false 0
           (p := (0, 8, Some 400)%float) (q := (0, 7, None)%float)
           eq_refl eq_refl).
Defined.



(** [garbled.gpx], whose only track point has the latitude [north]. *)
Lemma bad_number_aborts_run_witness :
  Kroki.main (H0 := web_runtime) "uploads/garbled.gpx" None true
  = (1%Z, [Stderr (ErrorMsg ValueError)])
  /\ exists exc,
      Gpx2lv95.main (H0 := web_runtime) "uploads/garbled.gpx" None true
      = (1%Z, [Log ERROR (Unexpected exc)]).
Proof.
  apply (bad_number_aborts_run (H0 := web_runtime) "uploads/garbled.gpx"
           (root := garbled_doc)
           (Sample.pt_elem "trkpt" [("lat", "north"); ("lon", "8.0")]
                           (Some "1000"))
           None true (exc := ValueError)).
  - reflexivity.
  - vm_compute. auto.
  - reflexivity.
  - reflexivity.
Defined.

(** ** Binary64 without rounding *)
Section Unrounded.

Local Open Scope Qc_scope.

Lemma exact_value_number (x : float) :
  is_number x = true -> exact_value x = Some (number x).
Proof.
  unfold is_number, number. destruct (exact_value x); [reflexivity | discriminate].
Qed.

Lemma number_zero : number zero = 0.
Proof. reflexivity. Qed.

Lemma is_number_zero : is_number zero = true.
Proof. reflexivity. Qed.

Lemma is_exactly_number (x : float) (q : Qc) :
  is_exactly x q = true -> is_number x = true /\ number x = q.
Proof.
  unfold is_exactly, is_number, number.
  destruct (exact_value x) as [v |]; [| discriminate].
  intros Hq. split; [reflexivity | apply Qc_eq_bool_correct, Hq].
Qed.

Lemma exact_sub_number (a b : float) :
  exact_sub a b = true ->
  is_number (PrimFloat.sub a b) = true
  /\ number (PrimFloat.sub a b) = number a - number b.
Proof.
  unfold exact_sub. intros Hs.
  apply andb_true_iff in Hs as [_ Hs]. apply is_exactly_number, Hs.
Qed.

Lemma exact_add_number (a b : float) :
  exact_add a b = true ->
  is_number (PrimFloat.add a b) = true
  /\ number (PrimFloat.add a b) = number a + number b.
Proof.
  unfold exact_add. intros Hs.
  apply andb_true_iff in Hs as [_ Hs]. apply is_exactly_number, Hs.
Qed.

(** A float that is a number is above 0 when the number is. *)
Lemma Q_finite_sign (s : bool) (m : positive) (e : Z) :
  (if s then inject_Z (cond_Zopp s (Zpos m)) * 2 ^ e < 0
   else 0 < inject_Z (cond_Zopp s (Zpos m)) * 2 ^ e)%Q.
Proof.
  assert (Hp : (0 < 2 ^ e)%Q) by (apply Qpower_0_lt; reflexivity).
  assert (Hm : (0 < inject_Z (Zpos m))%Q) by reflexivity.
  pose proof (Qmult_lt_0_compat _ _ Hm Hp) as Hpos.
  destruct s; cbn [cond_Zopp]; [| exact Hpos].
  change (Z.opp (Zpos m)) with (- Zpos m)%Z. rewrite inject_Z_opp.
  setoid_replace (- inject_Z (Z.pos m) * 2 ^ e)%Q
    with (- (inject_Z (Z.pos m) * 2 ^ e))%Q by ring.
  revert Hpos. generalize (inject_Z (Z.pos m) * 2 ^ e)%Q. intros v Hv.
  apply (Qopp_lt_compat 0 v) in Hv. exact Hv.
Qed.

Lemma ltb_zero_number (d : float) :
  is_number d = true -> PrimFloat.ltb zero d = Qc_ltb 0 (number d).
Proof.
  unfold is_number, number, exact_value. rewrite ltb_spec.
  change (Prim2SF zero) with (S754_zero false).
  destruct (Prim2SF d) as [s | s | | s m e]; cbn [is_none negb];
    try discriminate; intros _.
  - reflexivity.
  - pose proof (Q_finite_sign s m e) as Hs.
    destruct s; cbn [SFltb SFcompare].
    + symmetry. apply not_true_is_false. rewrite Qc_ltb_lt.
      unfold Qclt. cbn [this Q2Qc]. rewrite !Qred_correct. intros Hpos.
      apply (Qlt_irrefl 0). eapply Qlt_trans; [exact Hpos | exact Hs].
    + symmetry. apply Qc_ltb_lt.
      unfold Qclt. cbn [this Q2Qc]. rewrite !Qred_correct. exact Hs.
Qed.

Lemma max_zero_number (d : float) :
  is_number d = true ->
  is_number (py_max zero d) = true
  /\ number (py_max zero d) = py_max 0 (number d).
Proof.
  intros Hd. unfold py_max. cbn [ltb float_Number Qc_Number].
  rewrite (ltb_zero_number d Hd).
  destruct (Qc_ltb 0 (number d)); split; auto.
Qed.

Lemma opp_number (d : float) :
  is_number d = true ->
  is_number (PrimFloat.opp d) = true /\ number (PrimFloat.opp d) = - number d.
Proof.
  unfold is_number, number, exact_value. rewrite opp_spec.
  destruct (Prim2SF d) as [s | s | | s m e]; cbn [is_none negb SFopp];
    try discriminate; intros _; split; try reflexivity.
  apply Qc_is_canon. cbn [this Q2Qc Qcopp]. rewrite !Qred_correct.
  destruct s; cbn [cond_Zopp negb];
    change (Z.opp (Zpos m)) with (- Zpos m)%Z; rewrite inject_Z_opp; ring.
Qed.

(** A sum whose additions are exact is the sum of the numbers. *)
Lemma exact_sum_from_number (l : list float) (acc : float) :
  is_number acc = true ->
  exact_sum_from acc l = true ->
  is_number (fold_left PrimFloat.add l acc) = true
  /\ number (fold_left PrimFloat.add l acc)
     = fold_left Qcplus (map number l) (number acc).
Proof.
  revert acc; induction l as [| x rest IH]; intros acc Hacc Hsum.
  - split; [exact Hacc | reflexivity].
  - cbn [exact_sum_from] in Hsum. apply andb_true_iff in Hsum as [Hadd Hrest].
    destruct (exact_add_number _ _ Hadd) as [Hn Hv].
    cbn [fold_left map]. rewrite <- Hv. apply IH; assumption.
Qed.

Lemma exact_sum_number (l : list float) :
  exact_sum l = true ->
  is_number (py_sum l) = true /\ number (py_sum l) = py_sum (map number l).
Proof.
  intros Hsum.
  apply (exact_sum_from_number l zero is_number_zero Hsum).
Qed.

(** The terms of a sum over neighbours, as numbers. *)
Lemma pairwise_number (f : float -> float -> float) (g : Qc -> Qc -> Qc)
  (ok : float -> float -> bool) (eles : list float) :
  (forall a b, ok a b = true -> number (f a b) = g (number a) (number b)) ->
  forallb (fun b : bool => b) (pairwise ok eles) = true ->
  map number (pairwise f eles) = pairwise g (map number eles).
Proof.
  intros Hfg. induction eles as [| a [| b rest] IH]; intros Hok;
    [reflexivity | reflexivity |].
  cbn [pairwise forallb map] in *.
  apply andb_true_iff in Hok as [Hab Hrest].
  rewrite (Hfg a b Hab), (IH Hrest). reflexivity.
Qed.

Lemma last_number (eles : list float) :
  number (last eles zero) = last (map number eles) 0.
Proof.
  induction eles as [| a [| b rest] IH]; [reflexivity | reflexivity |].
  exact IH.
Qed.

Lemma hd_number (eles : list float) :
  number (hd zero eles) = hd 0 (map number eles).
Proof. destruct eles; reflexivity. Qed.

Lemma last_is_number (eles : list float) :
  forallb is_number eles = true -> is_number (last eles zero) = true.
Proof.
  induction eles as [| a [| b rest] IH]; intros Hall; [reflexivity | |].
  - cbn in *. rewrite andb_true_r in Hall. exact Hall.
  - cbn [forallb] in Hall. apply andb_true_iff in Hall as [_ Hall].
    apply IH, Hall.
Qed.

Lemma hd_is_number (eles : list float) :
  forallb is_number eles = true -> is_number (hd zero eles) = true.
Proof.
  destruct eles as [| a rest]; [reflexivity |]. cbn [forallb hd].
  intros Hall. apply andb_true_iff in Hall as [Ha _]. exact Ha.
Qed.

(** The two totals in numbers give the difference between the ends. *)
Lemma totals_number (eles : list float) (ascent descent : float) :
  forallb is_number eles = true ->
  is_number ascent = true -> is_number descent = true ->
  number ascent = Kroki.total_ascent (map number eles) ->
  number descent = Kroki.total_descent (map number eles) ->
  exists d : Qc,
    exact_difference ascent descent = Some d
    /\ exact_difference (last eles zero) (hd zero eles) = Some d.
Proof.
  intros Hall Ha Hd Hva Hvd.
  exists (number (last eles zero) - number (hd zero eles)).
  unfold exact_difference.
  rewrite (exact_value_number _ Ha), (exact_value_number _ Hd).
  rewrite (exact_value_number _ (last_is_number _ Hall)).
  rewrite (exact_value_number _ (hd_is_number _ Hall)).
  split; [| reflexivity]. f_equal.
  rewrite Hva, Hvd, last_number, hd_number. apply kroki_telescope.
Qed.

(** The totals of [generate_kroki] in numbers. *)
Lemma kroki_totals_number (eles : list float) :
  kroki_no_rounding eles = true ->
  forallb is_number eles = true
  /\ is_number (Kroki.total_ascent eles) = true
  /\ is_number (Kroki.total_descent eles) = true
  /\ number (Kroki.total_ascent eles) = Kroki.total_ascent (map number eles)
  /\ number (Kroki.total_descent eles) = Kroki.total_descent (map number eles).
Proof.
  unfold kroki_no_rounding. intros Hno.
  apply andb_true_iff in Hno as [Hno Hdown].
  apply andb_true_iff in Hno as [Hno Hup].
  apply andb_true_iff in Hno as [Hall Hdiff].
  unfold Kroki.total_ascent, Kroki.total_descent.
  rewrite !sum_over_segments_pairwise.
  destruct (exact_sum_number _ Hup) as [Hna Hva].
  destruct (exact_sum_number _ Hdown) as [Hnd Hvd].
  split; [exact Hall |]. split; [exact Hna |]. split; [exact Hnd |].
  rewrite Hva, Hvd. split; f_equal.
  - apply pairwise_number with
      (ok := fun prev cur => exact_sub cur prev && exact_sub prev cur);
      [| exact Hdiff].
    intros a b Hab. apply andb_true_iff in Hab as [Hba _].
    destruct (exact_sub_number _ _ Hba) as [Hn Hv].
    destruct (max_zero_number _ Hn) as [_ Hm].
    cbn [sub zero float_Number Qc_Number] in *. rewrite Hm, Hv. reflexivity.
  - apply pairwise_number with
      (ok := fun prev cur => exact_sub cur prev && exact_sub prev cur);
      [| exact Hdiff].
    intros a b Hab. apply andb_true_iff in Hab as [_ Hab].
    destruct (exact_sub_number _ _ Hab) as [Hn Hv].
    destruct (max_zero_number _ Hn) as [_ Hm].
    cbn [sub zero float_Number Qc_Number] in *. rewrite Hm, Hv. reflexivity.
Qed.

(** The totals of [format_profile] in numbers, over the resolved
    elevations. *)
Lemma lv95_totals_number (eles : list float) :
  lv95_no_rounding eles = true ->
  let ascent :=
    py_sum (pairwise (fun prev cur => py_max zero (sub cur prev)) eles) in
  let descent :=
    py_sum (pairwise (fun prev cur => py_max zero (opp (sub cur prev))) eles) in
  forallb is_number eles = true
  /\ is_number ascent = true
  /\ is_number descent = true
  /\ number ascent = Kroki.total_ascent (map number eles)
  /\ number descent = Kroki.total_descent (map number eles).
Proof.
  unfold lv95_no_rounding. intros Hno. cbv zeta.
  apply andb_true_iff in Hno as [Hno Hdown].
  apply andb_true_iff in Hno as [Hno Hup].
  apply andb_true_iff in Hno as [Hall Hdiff].
  destruct (exact_sum_number _ Hup) as [Hna Hva].
  destruct (exact_sum_number _ Hdown) as [Hnd Hvd].
  split; [exact Hall |]. split; [exact Hna |]. split; [exact Hnd |].
  rewrite Hva, Hvd. unfold Kroki.total_ascent, Kroki.total_descent.
  rewrite !sum_over_segments_pairwise. split; f_equal.
  - apply pairwise_number with (ok := fun prev cur => exact_sub cur prev);
      [| exact Hdiff].
    intros a b Hab.
    destruct (exact_sub_number _ _ Hab) as [Hn Hv].
    destruct (max_zero_number _ Hn) as [_ Hm].
    cbn [sub zero float_Number Qc_Number] in *. rewrite Hm, Hv. reflexivity.
  - apply pairwise_number with (ok := fun prev cur => exact_sub cur prev);
      [| exact Hdiff].
    intros a b Hab.
    destruct (exact_sub_number _ _ Hab) as [Hn Hv].
    destruct (opp_number _ Hn) as [Hon Hov].
    destruct (max_zero_number _ Hon) as [_ Hm].
    cbn [sub opp zero float_Number Qc_Number] in *.
    rewrite Hm, Hov, Hv. f_equal. ring.
Qed.

End Unrounded.

(** ** The totals of [format_profile], over the resolved elevations *)
Section ProfileTotals.

Context {F : Type} `{Number F} `{Runtime F}.

Lemma pairwise_map {A B C} (f : B -> B -> C) (g : A -> B) (l : list A) :
  pairwise f (map g l) = pairwise (fun a b => f (g a) (g b)) l.
Proof.
  induction l as [| a [| b rest] IH]; [reflexivity | reflexivity |].
  cbn [map pairwise] in *. rewrite IH. reflexivity.
Qed.

Lemma next_entry_fields (lookup : bool) (p q : point F) :
  Gpx2lv95.pt_ele (next_entry lookup p q) = Some (fst (lv95_resolve lookup q))
  /\ Gpx2lv95.pt_delta_ele (next_entry lookup p q)
     = sub (fst (lv95_resolve lookup q)) (fst (lv95_resolve lookup p)).
Proof.
  unfold next_entry. destruct q as [[lat lon] ele], p as [[plat plon] pele].
  destruct (LV95_transform lon lat).
  destruct (GEOD_inv plon plat lon lat) as [[az baz] dist]. split; reflexivity.
Qed.

Lemma resolved_elevations (lookup : bool) (points : list (point F)) :
  profile_elevations (entries lookup points)
  = map (fun p => fst (lv95_resolve lookup p)) points.
Proof.
  destruct points as [| p rest]; [reflexivity |].
  cbn [entries profile_elevations flat_map map].
  assert (Hfirst : Gpx2lv95.pt_ele (first_entry lookup p)
                   = Some (fst (lv95_resolve lookup p))).
  { unfold first_entry. destruct p as [[lat lon] ele].
    destruct (LV95_transform lon lat). reflexivity. }
  rewrite Hfirst. cbn [app]. f_equal.
  clear Hfirst. revert p; induction rest as [| q rest IH]; intros p;
    [reflexivity |].
  cbn [entries_after flat_map map].
  rewrite (proj1 (next_entry_fields lookup p q)). cbn [app]. f_equal. apply IH.
Qed.

Lemma entries_after_terms (g : F -> F) (lookup : bool) (p : point F)
  (rest : list (point F)) :
  map (fun pt => g (Gpx2lv95.pt_delta_ele pt)) (entries_after lookup p rest)
  = pairwise (fun prev cur => g (sub cur prev))
             (map (fun p => fst (lv95_resolve lookup p)) (p :: rest)).
Proof.
  revert p; induction rest as [| q rest IH]; intros p; [reflexivity |].
  cbn [entries_after map pairwise] in *. rewrite IH.
  rewrite (proj2 (next_entry_fields lookup p q)). reflexivity.
Qed.

(** The ascent and the descent of a profile of [build_profile] are sums
    over the neighbours among the resolved elevations. *)
Lemma profile_totals (lookup : bool) (points : list (point F)) :
  let profile := fst (Gpx2lv95.build_profile points lookup) in
  let eles := profile_elevations profile in
  Gpx2lv95.total_ascent profile
  = py_sum (pairwise (fun prev cur => py_max zero (sub cur prev)) eles)
  /\ Gpx2lv95.total_descent profile
     = py_sum (pairwise (fun prev cur => py_max zero (opp (sub cur prev))) eles).
Proof.
  cbv zeta. rewrite build_profile_entries, resolved_elevations.
  unfold Gpx2lv95.total_ascent, Gpx2lv95.total_descent.
  destruct points as [| p rest]; [split; reflexivity |].
  cbn [entries tl].
  rewrite (entries_after_terms (fun d => py_max zero d)).
  rewrite (entries_after_terms (fun d => py_max zero (opp d))).
  split; reflexivity.
Qed.

End ProfileTotals.

(** ** Ascent minus descent on binary64 *)
Section AscentMinusDescent.

Local Open Scope Qc_scope.

Context {rt : Runtime float}.

(** C9, as the code has it.  On binary64, when no operation behind the
    two totals rounds or overflows (the elevations are numbers, the
    difference of two neighbours and every addition of the two sums come
    out exact), total ascent minus total descent is, as a number, the
    elevation of the last point minus that of the first: for the profile
    of [gpx2lv95.py], whose elevations are always resolved, and for
    [gpx_to_swiss_kroki.py] whenever every Swiss point has an elevation. *)
Theorem ascent_minus_descent_unrounded (points : list (point float))
  (lookup : bool) :
  (let profile := fst (Gpx2lv95.build_profile points lookup) in
   let eles := profile_elevations profile in
   lv95_no_rounding eles = true ->
   exists d : Qc,
     exact_difference (Gpx2lv95.total_ascent profile)
                      (Gpx2lv95.total_descent profile) = Some d
     /\ exact_difference (last eles zero) (hd zero eles) = Some d)
  /\ (forall eles,
         Kroki.all_elevations (kroki_swiss_points lookup points) = Some eles ->
         kroki_no_rounding eles = true ->
         exists d : Qc,
           exact_difference (Kroki.total_ascent eles)
                            (Kroki.total_descent eles) = Some d
           /\ exact_difference (last eles zero) (hd zero eles) = Some d).
Proof.
  split.
  - cbv zeta. intros Hno.
    destruct (profile_totals lookup points) as [Ha Hd]. cbv zeta in Ha, Hd.
    rewrite Ha, Hd.
    destruct (lv95_totals_number _ Hno) as (Hall & Hna & Hnd & Hva & Hvd).
    apply (totals_number _ _ _ Hall Hna Hnd Hva Hvd).
  - intros eles _ Hno.
    destruct (kroki_totals_number _ Hno) as (Hall & Hna & Hnd & Hva & Hvd).
    apply (totals_number _ _ _ Hall Hna Hnd Hva Hvd).
Qed.

End AscentMinusDescent.

(** A route that climbs 50.5 m and comes down 70.25 m: every elevation
    and every difference is a multiple of a quarter of a metre, nothing
    rounds, and ascent minus descent is 980.25 - 1000 = -19.75. *)
Lemma ascent_minus_descent_unrounded_witness :
  (exists d : Qc,
      exact_difference
        (Gpx2lv95.total_ascent
           (fst (Gpx2lv95.build_profile (H0 := sample_runtime)
                   [(46, 8, Some 1000); (46.001, 8, Some 1050.5);
                    (46.002, 8, Some 980.25)]%float false)))
        (Gpx2lv95.total_descent
           (fst (Gpx2lv95.build_profile (H0 := sample_runtime)
                   [(46, 8, Some 1000); (46.001, 8, Some 1050.5);
                    (46.002, 8, Some 980.25)]%float false)))
      = Some d
      /\ exact_difference 980.25%float 1000%float = Some d)
  /\ (exists d : Qc,
      exact_difference (Kroki.total_ascent [1000; 1050.5; 980.25]%float)
                       (Kroki.total_descent [1000; 1050.5; 980.25]%float)
      = Some d
      /\ exact_difference 980.25%float 1000%float = Some d).
Proof.
  destruct (ascent_minus_descent_unrounded (rt := sample_runtime)
              [(46, 8, Some 1000); (46.001, 8, Some 1050.5);
               (46.002, 8, Some 980.25)]%float false) as [Hlv95 Hkroki].
  split.
  - apply Hlv95. vm_compute. reflexivity.
  - apply (Hkroki [1000; 1050.5; 980.25]%float);
      vm_compute; reflexivity.
Defined.

(** Where the identity fails, the condition does: on the route 2000.8,
    404.4, 1335.3 a difference rounds, and on 1e308, -1e308, 1e308 one
    overflows. *)
Example rounding_routes :
  kroki_no_rounding [2000.8; 404.4; 1335.3]%float = false
  /\ lv95_no_rounding [2000.8; 404.4; 1335.3]%float = false
  /\ kroki_no_rounding [1e308; -1e308; 1e308]%float = false
  /\ lv95_no_rounding [1e308; -1e308; 1e308]%float = false.
Proof. repeat split; vm_compute; reflexivity. Qed.

(** Where an elevation overflows the identity is lost altogether: on the
    route 1e308, -1e308, 1e308 ascent and descent are both infinite and
    their difference is nan, while the last elevation minus the first
    is 0. *)
Example overflowing_route :
  PrimFloat.is_nan
    (PrimFloat.sub (Kroki.total_ascent [1e308; -1e308; 1e308]%float)
                   (Kroki.total_descent [1e308; -1e308; 1e308]%float)) = true
  /\ PrimFloat.sub 1e308 1e308 = 0%float.
Proof. split; vm_compute; reflexivity. Qed.

(** ** The totals are never negative *)
Section NonNegative.

Local Open Scope Z_scope.

Lemma shr_1_nonneg (mrs : shr_record) :
  0 <= shr_m mrs -> 0 <= shr_m (shr_1 mrs).
Proof.
  destruct mrs as [m r s]. cbn [shr_m]. intros Hm.
  destruct m as [| p | p]; [cbn; lia | | lia].
  destruct p; cbn; lia.
Qed.

Lemma iter_shr_1_nonneg (p : positive) (mrs : shr_record) :
  0 <= shr_m mrs -> 0 <= shr_m (SpecFloat.iter_pos shr_1 p mrs).
Proof.
  revert mrs; induction p as [p IH | p IH |]; intros mrs Hm; cbn [SpecFloat.iter_pos].
  - apply IH, IH, shr_1_nonneg, Hm.
  - apply IH, IH, Hm.
  - apply shr_1_nonneg, Hm.
Qed.

Lemma shr_fexp_nonneg (prec emax m e : Z) (l : location) :
  0 <= m -> 0 <= shr_m (fst (shr_fexp prec emax m e l)).
Proof.
  intros Hm. unfold shr_fexp, shr.
  assert (Hrec : 0 <= shr_m (shr_record_of_loc m l))
    by (destruct l as [| []]; exact Hm).
  destruct (fexp prec emax (Zdigits2 m + e) - e) as [| p | p]; cbn [fst];
    [exact Hrec | apply iter_shr_1_nonneg, Hrec | exact Hrec].
Qed.

Lemma round_nearest_even_nonneg (m : Z) (l : location) :
  0 <= m -> 0 <= round_nearest_even m l.
Proof.
  intros Hm. destruct l as [| []]; cbn [round_nearest_even];
    try destruct (IntDef.Z.even m); lia.
Qed.

(** Rounding keeps the sign it is given. *)
Lemma binary_round_aux_nonneg (prec emax mx ex : Z) (lx : location) :
  0 <= mx ->
  SFleb (S754_zero false) (binary_round_aux prec emax false mx ex lx) = true.
Proof.
  intros Hm. unfold binary_round_aux.
  pose proof (@shr_fexp_nonneg prec emax mx ex lx Hm) as H1.
  destruct (shr_fexp prec emax mx ex lx) as [mrs' e']. cbn [fst] in H1.
  pose proof (@round_nearest_even_nonneg (shr_m mrs') (loc_of_shr_record mrs') H1)
    as H2.
  pose proof (@shr_fexp_nonneg prec emax _ e' loc_Exact H2) as H3.
  destruct (shr_fexp prec emax
              (round_nearest_even (shr_m mrs') (loc_of_shr_record mrs'))
              e' loc_Exact) as [mrs'' e'']. cbn [fst] in H3.
  destruct (shr_m mrs'') as [| m | m]; [reflexivity | | lia].
  destruct (e'' <=? emax - prec); reflexivity.
Qed.

Lemma binary_round_nonneg (prec emax : Z) (m : positive) (e : Z) :
  SFleb (S754_zero false) (binary_round prec emax false m e) = true.
Proof.
  unfold binary_round.
  destruct (shl_align m e (fexp prec emax (Z.pos (digits2_pos m) + e)))
    as [mz ez].
  apply binary_round_aux_nonneg. lia.
Qed.

(** The sum of two floats that are not below 0 is not below 0, and is not
    nan. *)
Lemma SFadd_nonneg (prec emax : Z) (x y : spec_float) :
  SFleb (S754_zero false) x = true ->
  SFleb (S754_zero false) y = true ->
  SFleb (S754_zero false) (SFadd prec emax x y) = true.
Proof.
  destruct x as [sx | sx | | sx mx ex], y as [sy | sy | | sy my ey];
    try discriminate;
    try (destruct sx; try discriminate);
    try (destruct sy; try discriminate);
    intros Hx Hy; try reflexivity; try assumption.
  cbn [SFadd cond_Zopp]. apply binary_round_nonneg.
Qed.

Lemma add_nonnegative (x y : float) :
  nonnegative x = true -> nonnegative y = true ->
  nonnegative (PrimFloat.add x y) = true.
Proof.
  unfold nonnegative. rewrite !leb_spec, add_spec.
  change (Prim2SF zero) with (S754_zero false).
  apply SFadd_nonneg.
Qed.

Lemma max_zero_nonnegative (d : float) : nonnegative (py_max zero d) = true.
Proof.
  unfold py_max, nonnegative. cbn [ltb zero float_Number].
  destruct (PrimFloat.ltb PrimFloat.zero d) eqn:Hd; [| reflexivity].
  rewrite ltb_spec in Hd. rewrite leb_spec.
  unfold SFltb in Hd. unfold SFleb.
  destruct (SFcompare (Prim2SF PrimFloat.zero) (Prim2SF d)) as [[] |];
    try discriminate; reflexivity.
Qed.

Lemma sum_nonnegative (l : list float) (acc : float) :
  nonnegative acc = true ->
  Forall (fun x => nonnegative x = true) l ->
  nonnegative (fold_left PrimFloat.add l acc) = true.
Proof.
  intros Hacc Hl. revert acc Hacc.
  induction Hl as [| x rest Hx _ IH]; intros acc Hacc; [exact Hacc |].
  cbn [fold_left]. apply IH, add_nonnegative; assumption.
Qed.

Lemma pairwise_Forall {A B} (P : B -> Prop) (f : A -> A -> B) (l : list A) :
  (forall a b, P (f a b)) -> Forall P (pairwise f l).
Proof.
  intros Hf. induction l as [| a [| b rest] IH]; [constructor | constructor |].
  cbn [pairwise] in *. constructor; [apply Hf | exact IH].
Qed.

(** On binary64 no total of ascent or descent is negative, and none is
    nan, whatever the elevations are, infinities and nan included: every
    term is 0.0 or a difference above 0, and the sum of such floats, taken
    from left to right, is again 0 or above. *)
Theorem ascent_and_descent_nonnegative :
  (forall eles : list float,
      nonnegative (Kroki.total_ascent eles) = true
      /\ nonnegative (Kroki.total_descent eles) = true)
  /\ (forall profile : list (Gpx2lv95.entry float),
      nonnegative (Gpx2lv95.total_ascent profile) = true
      /\ nonnegative (Gpx2lv95.total_descent profile) = true).
Proof.
  split.
  - intros eles. unfold Kroki.total_ascent, Kroki.total_descent.
    rewrite !sum_over_segments_pairwise.
    split; apply sum_nonnegative; try reflexivity;
      apply pairwise_Forall; intros; apply max_zero_nonnegative.
  - intros profile. unfold Gpx2lv95.total_ascent, Gpx2lv95.total_descent.
    split; apply sum_nonnegative; try reflexivity;
      apply Forall_map, Forall_forall; intros; apply max_zero_nonnegative.
Qed.

End NonNegative.

(** ** The route walked backwards *)
Section SwissPointsMap.

Context {F : Type} `{Number F} `{Runtime F}.

(** What a Swiss point is does not depend on its index, which only goes
    into the progress message. *)
Lemma kroki_swiss_points_map (lookup : bool) (points : list (point F)) :
  kroki_swiss_points lookup points
  = map (fun p => fst (Kroki.resolve_point lookup 0 p)) points.
Proof.
  unfold kroki_swiss_points. rewrite resolve_points_value. cbn [app].
  generalize 0%nat at 1. induction points as [| p rest IH]; intros k;
    [reflexivity |].
  cbn [enumerate map fst snd]. rewrite IH. f_equal.
  destruct p as [[lat lon] ele]. unfold Kroki.resolve_point.
  destruct (Kroki.wgs84_to_lv95 lat lon) as [e n].
  rewrite !bind_value. cbn [ret fst]. f_equal.
  destruct (is_none ele && lookup); [| reflexivity].
  rewrite !bind_value.
  destruct (fst (Kroki.fetch_elevation_swisstopo e n)); rewrite ?bind_value;
    reflexivity.
Qed.

End SwissPointsMap.

Section Backwards.

Local Open Scope Qc_scope.

Context {rt : Runtime float}.

Lemma swapped_numbers (ascent descent ascent' descent' : float)
  (qs : list Qc) :
  is_number ascent = true -> is_number descent = true ->
  is_number ascent' = true -> is_number descent' = true ->
  number ascent = Kroki.total_ascent qs ->
  number descent = Kroki.total_descent qs ->
  number ascent' = Kroki.total_ascent (rev qs) ->
  number descent' = Kroki.total_descent (rev qs) ->
  exists up down : Qc,
    exact_value ascent = Some up /\ exact_value descent = Some down
    /\ exact_value ascent' = Some down /\ exact_value descent' = Some up.
Proof.
  intros Ha Hd Ha' Hd' Hva Hvd Hva' Hvd'.
  exists (number ascent), (number descent).
  rewrite (exact_value_number _ Ha), (exact_value_number _ Hd).
  rewrite (exact_value_number _ Ha'), (exact_value_number _ Hd').
  rewrite Hva', Hvd', kroki_ascent_rev, kroki_descent_rev, Hva, Hvd.
  repeat split.
Qed.

(** On binary64, when no operation behind the totals rounds on the way
    there nor on the way back, the route walked backwards has, as
    numbers, the ascent of the route for descent and its descent for
    ascent, in the reports of both scripts, the elevations that a lookup
    gives included: a lookup depends on the place only, not on the
    direction. *)
Theorem reversed_route_swaps_ascent_and_descent (points : list (point float))
  (lookup : bool) :
  (let there := fst (Gpx2lv95.build_profile points lookup) in
   let back := fst (Gpx2lv95.build_profile (rev points) lookup) in
   lv95_no_rounding (profile_elevations there) = true ->
   lv95_no_rounding (profile_elevations back) = true ->
   exists up down : Qc,
     exact_value (Gpx2lv95.total_ascent there) = Some up
     /\ exact_value (Gpx2lv95.total_descent there) = Some down
     /\ exact_value (Gpx2lv95.total_ascent back) = Some down
     /\ exact_value (Gpx2lv95.total_descent back) = Some up)
  /\ (forall eles,
         Kroki.all_elevations (kroki_swiss_points lookup points) = Some eles ->
         Kroki.all_elevations (kroki_swiss_points lookup (rev points))
         = Some (rev eles)
         /\ (kroki_no_rounding eles = true ->
             kroki_no_rounding (rev eles) = true ->
             exists up down : Qc,
               exact_value (Kroki.total_ascent eles) = Some up
               /\ exact_value (Kroki.total_descent eles) = Some down
               /\ exact_value (Kroki.total_ascent (rev eles)) = Some down
               /\ exact_value (Kroki.total_descent (rev eles)) = Some up)).
Proof.
  split.
  - cbv zeta. intros Hthere Hback.
    destruct (profile_totals lookup points) as [Ha Hd].
    destruct (profile_totals lookup (rev points)) as [Ha' Hd'].
    cbv zeta in Ha, Hd, Ha', Hd'. rewrite Ha, Hd, Ha', Hd'.
    destruct (lv95_totals_number _ Hthere) as (_ & Hna & Hnd & Hva & Hvd).
    destruct (lv95_totals_number _ Hback) as (_ & Hna' & Hnd' & Hva' & Hvd').
    cbv zeta in *.
    eapply swapped_numbers;
      [exact Hna | exact Hnd | exact Hna' | exact Hnd' | exact Hva | exact Hvd
      | |].
    + rewrite Hva'. f_equal.
      rewrite !build_profile_entries, !resolved_elevations, !map_rev.
      reflexivity.
    + rewrite Hvd'. f_equal.
      rewrite !build_profile_entries, !resolved_elevations, !map_rev.
      reflexivity.
  - intros eles Heles. split.
    + rewrite kroki_swiss_points_map, map_rev, <- kroki_swiss_points_map.
      apply all_elevations_rev, Heles.
    + intros Hthere Hback.
      destruct (kroki_totals_number _ Hthere) as (_ & Hna & Hnd & Hva & Hvd).
      destruct (kroki_totals_number _ Hback) as (_ & Hna' & Hnd' & Hva' & Hvd').
      eapply swapped_numbers;
        [exact Hna | exact Hnd | exact Hna' | exact Hnd' | exact Hva
        | exact Hvd | |].
      * rewrite Hva', map_rev. reflexivity.
      * rewrite Hvd', map_rev. reflexivity.
Qed.

End Backwards.

(** The route of the witness above, there and back. *)
Lemma reversed_route_swaps_ascent_and_descent_witness :
  exists up down : Qc,
    exact_value
      (Gpx2lv95.total_ascent
         (fst (Gpx2lv95.build_profile (H0 := sample_runtime)
                 [(46, 8, Some 1000); (46.001, 8, Some 1050.5);
                  (46.002, 8, Some 980.25)]%float false))) = Some up
    /\ exact_value
         (Gpx2lv95.total_descent
            (fst (Gpx2lv95.build_profile (H0 := sample_runtime)
                    [(46, 8, Some 1000); (46.001, 8, Some 1050.5);
                     (46.002, 8, Some 980.25)]%float false))) = Some down
    /\ exact_value
         (Gpx2lv95.total_ascent
            (fst (Gpx2lv95.build_profile (H0 := sample_runtime)
                    (rev [(46, 8, Some 1000); (46.001, 8, Some 1050.5);
                          (46.002, 8, Some 980.25)]%float) false)))
       = Some down
    /\ exact_value
         (Gpx2lv95.total_descent
            (fst (Gpx2lv95.build_profile (H0 := sample_runtime)
                    (rev [(46, 8, Some 1000); (46.001, 8, Some 1050.5);
                          (46.002, 8, Some 980.25)]%float) false)))
       = Some up.
Proof.
  apply (reversed_route_swaps_ascent_and_descent (rt := sample_runtime)
           [(46, 8, Some 1000); (46.001, 8, Some 1050.5);
            (46.002, 8, Some 980.25)]%float false);
    vm_compute; reflexivity.
Defined.

(** ** An output file that cannot be written *)
Section WriteFails.

Context {F : Type} `{Number F} `{Runtime F}.


(** A power that overflows loses the whole run of
    [gpx_to_swiss_kroki.py]: a coordinate so large that its square or cube
    in [wgs84_to_lv95], or the square of a difference in
    [calculate_distance], is beyond binary64 makes the script end with
    status 1, after [Error:] and the [OverflowError] as its last line,
    without a report. *)
Theorem kroki_overflow_exits_one (gpx_file : string)
  (output_file : option string) (fetch_elevation : bool) (p : point F)
  (ps : list (point F)) :
  Kroki.parse_gpx gpx_file = Ok (p :: ps) ->
  kroki_overflows fetch_elevation (p :: ps) = true ->
  exists events,
    Kroki.main gpx_file output_file fetch_elevation
    = (1%Z, events ++ [Stderr (ErrorMsg OverflowError)])
    /\ emitted_reports events = [].
Proof.
  intros Hparse Hover.
  rewrite (kroki_main_with_points _ _ _ Hparse). cbv zeta.
  unfold kroki_overflows, kroki_swiss_points in Hover.
  destruct (Kroki.conversion_raises (p :: ps)).
  - eexists. split; [reflexivity |].
    rewrite emitted_reports_app, resolve_points_events.
    rewrite emitted_reports_flat_map
      by (intros; apply kroki_resolve_no_report).
    destruct (existsb _ _ && fetch_elevation); reflexivity.
  - cbn [orb] in Hover. rewrite Hover.
    eexists. split; [reflexivity | apply kroki_loops_no_report].
Qed.

End WriteFails.


(** [far.gpx]: the square of the auxiliary latitude overflows. *)
Lemma kroki_overflow_exits_one_witness :
  exists events,
    Kroki.main (H0 := far_runtime) "far.gpx" None false
    = (1%Z, events ++ [Stderr (ErrorMsg OverflowError)])
    /\ emitted_reports events = [].
Proof.
  apply (kroki_overflow_exits_one (H0 := far_runtime) "far.gpx"
           None false (p := (46, 8, Some 1000)%float)
           (ps := [(1e200, 8, Some 1050)]%float));
    vm_compute; reflexivity.
Defined.
